(** * goiban-service: the validation request pipeline

    A shallow embedding of [goiban_service.go]: the [/validate/:iban]
    handler, its cache-key construction, the result cache it shares across
    requests and the detached metrics tasks it spawns.

    Go strings are byte sequences: they are [string] here (a list of 8-bit
    [ascii]).  [time.Duration] and Unix times are [Z], in nanoseconds.  The
    process-wide variables ([c], [db], [ENV], [metrics], [inmemMetrics]) are
    the fields of one [World] record that every operation threads. *)

From Stdlib Require Import ZArith String Ascii Lia.
From stdpp Require Import base option list strings gmap pretty.

Local Open Scope string_scope.
Local Open Scope Z_scope.

(** ** Package [time] *)
Module time.
Definition Nanosecond : Z := 1.
Definition Second : Z := 1000000000 * Nanosecond.
Definition Minute : Z := 60 * Second.
End time.

(** ** Package [strconv] *)
Module strconv.
Definition FormatBool (b : bool) : string :=
  if b then "true" else "false".

Definition Itoa (n : nat) : string := pretty n.
End strconv.

(** ** Package [go-cache]

    The handler only uses [New], [Get] and [Set]; the janitor started by
    [New] calls [DeleteExpired] every cleanup interval.  A duration of [0]
    passed to [Set] stands for the default expiration given to [New], [-1]
    for no expiration; an item whose [Expiration] is [0] never expires. *)
Module cache.
Definition NoExpiration : Z := -1.
Definition DefaultExpiration : Z := 0.

Record Item := { Object : string; Expiration : Z }.

Record Cache := {
  defaultExpiration : Z;
  cleanupInterval : Z;
  items : gmap string Item
}.

Definition New (de ci : Z) : Cache :=
  {| defaultExpiration := if de =? 0 then -1 else de;
     cleanupInterval := ci;
     items := ∅ |}.

Definition Expired (now : Z) (it : Item) : bool :=
  (0 <? Expiration it) && (Expiration it <? now).

Definition Set_ (c : Cache) (now : Z) (k x : string) (d : Z) : Cache :=
  let d := if d =? DefaultExpiration then defaultExpiration c else d in
  let e := if 0 <? d then now + d else 0 in
  {| defaultExpiration := defaultExpiration c;
     cleanupInterval := cleanupInterval c;
     items := <[k := {| Object := x; Expiration := e |}]> (items c) |}.

Definition Get (c : Cache) (now : Z) (k : string) : option string :=
  match items c !! k with
  | None => None
  | Some it => if Expired now it then None else Some (Object it)
  end.

Definition DeleteExpired (c : Cache) (now : Z) : Cache :=
  {| defaultExpiration := defaultExpiration c;
     cleanupInterval := cleanupInterval c;
     items := filter (fun kv => Expired now kv.2 = false) (items c) |}.
End cache.

(** ** Package [net/http]: the response writer as a recorder

    What the handler does to its [http.ResponseWriter]: header edits, the
    status line (written by the first [Write] when nothing set it before)
    and the bytes written. *)
Module http.
Definition StatusOK : Z := 200.
Definition StatusBadRequest : Z := 400.

Record ResponseWriter := {
  Header : gmap string (list string);
  Code : option Z;
  Body : string
}.

Definition NewRecorder : ResponseWriter :=
  {| Header := ∅; Code := None; Body := "" |}.

Definition Header_Add (k v : string) (w : ResponseWriter) : ResponseWriter :=
  {| Header := <[k := (default [] (Header w !! k) ++ [v])%list]> (Header w);
     Code := Code w; Body := Body w |}.

Definition Header_Set (k v : string) (w : ResponseWriter) : ResponseWriter :=
  {| Header := <[k := [v]]> (Header w); Code := Code w; Body := Body w |}.

Definition WriteHeader (code : Z) (w : ResponseWriter) : ResponseWriter :=
  {| Header := Header w;
     Code := match Code w with None => Some code | Some k => Some k end;
     Body := Body w |}.

Definition Write (b : string) (w : ResponseWriter) : ResponseWriter :=
  let w := WriteHeader StatusOK w in
  {| Header := Header w; Code := Code w; Body := Body w +:+ b |}.

(** [http.Error]: plain-text content type, the status, then the message
    followed by a newline ([fmt.Fprintln]). *)
Definition Error (error : string) (code : Z) (w : ResponseWriter)
  : ResponseWriter :=
  let w := Header_Set "Content-Type" "text/plain; charset=utf-8" w in
  let w := Header_Set "X-Content-Type-Options" "nosniff" w in
  let w := WriteHeader code w in
  Write (error +:+ String "010" "") w.

(** The request as the handler reads it: the router's path parameters
    and the parsed query ([url.Values]). *)
Record Request := {
  ps : list (string * string);
  Form : gmap string (list string)
}.

Fixpoint ByName (ps : list (string * string)) (name : string) : string :=
  match ps with
  | [] => ""
  | (k, v) :: ps => if decide (k = name) then v else ByName ps name
  end.

Definition FormValue (r : Request) (key : string) : string :=
  match Form r !! key with
  | Some (v :: _) => v
  | _ => ""
  end.
End http.

(** ** Package [goiban]: the validator and the augmenter

    External collaborators, kept abstract: the types of a parsed IBAN, of a
    validation result and of the database handle, and the operations the
    service calls on them. *)
Record ParserResult := { Valid : bool; Message : string }.

Class Goiban := {
  Iban : Type;
  ValidationResult : Type;
  DB : Type;
  NewValidationResult : bool -> string -> string -> ValidationResult;
  IsParseable : string -> ParserResult;
  ParseToIban : string -> Iban;
  Validate : Iban -> ValidationResult;
  ValidateBankCode : Iban -> ValidationResult -> DB -> ValidationResult;
  GetBic : Iban -> ValidationResult -> DB -> ValidationResult
}.

(** ** Packages [encoding/json] and [fmt]

    [MarshalIndent v prefix indent] gives the bytes and the error;
    [Unmarshal data] gives the pointer it leaves in its target ([None] for
    [nil]) and whether it reported an error; [Sprintf format] is what
    [fmt.Fprintf w format] writes when it is given no operands. *)
Class GoStd `{Goiban} := {
  MarshalIndent : ValidationResult -> string -> string -> string * option string;
  Unmarshal : string -> option ValidationResult * bool;
  Sprintf : string -> string
}.

(** ** Package [metrics]

    The package's operations as the service calls them.  [KeenMetrics] is
    the remote collector's credentials and [Keen] stands for the remote
    collector itself; the two remote operations report whether the dispatch
    succeeded.  [InmemMetricsRegister] is the in-process register and
    [Register] adds an event to it. *)
Record KeenMetrics := { ProjectID : string; WriteAPIKey : string }.

Class Metrics `{Goiban} := {
  Event : Type;
  Keen : Type;
  InmemMetricsRegister : Type;
  NewInmemMetricsRegister : InmemMetricsRegister;
  Register : Event -> InmemMetricsRegister -> InmemMetricsRegister;
  ValidationResultToEvent : option ValidationResult -> Event;
  IbanToEvent : Iban -> Event;
  LogRequestFromValidationResult :
    KeenMetrics -> string -> string -> Keen -> Keen * bool;
  WriteLogRequest : KeenMetrics -> string -> Iban -> Keen -> Keen * bool
}.

(** ** The service *)

(** A detached call: [go logFromCacheEntry(ENV, value)] or
    [go logFromIbanResult(ENV, parsedIban)], with its operands evaluated. *)
Inductive Task `{Goiban} :=
| LogFromCacheEntry (ENV value : string)
| LogFromIbanResult (ENV : string) (value : Iban).

(** What a run of the handler does, in program order. *)
Inductive Call `{Goiban} :=
| CacheGet (k : string)
| CacheSet (k x : string) (d : Z)
| CallIsParseable (iban : string)
| CallParseToIban (iban : string)
| CallValidate (iban : Iban)
| CallValidateBankCode (iban : Iban)
| CallGetBic (iban : Iban)
| Go (t : Task)
| Println (err : string)
| Fprint (body : string).

Section Service.
Context `{G : Goiban} {S : GoStd} {K : Metrics}.

(** The package-level variables, the clock and the goroutines that were
    started and have not run yet. *)
Record World := {
  c : cache.Cache;
  db : DB;
  ENV : string;
  metrics : option KeenMetrics;
  inmemMetrics : InmemMetricsRegister;
  keen : Keen;
  now : Z;
  goroutines : list Task
}.

Definition with_c (x : cache.Cache) (g : World) : World :=
  {| c := x; db := db g; ENV := ENV g; metrics := metrics g;
     inmemMetrics := inmemMetrics g; keen := keen g; now := now g;
     goroutines := goroutines g |}.

Definition with_inmemMetrics (x : InmemMetricsRegister) (g : World) : World :=
  {| c := c g; db := db g; ENV := ENV g; metrics := metrics g;
     inmemMetrics := x; keen := keen g; now := now g;
     goroutines := goroutines g |}.

Definition with_keen (x : Keen) (g : World) : World :=
  {| c := c g; db := db g; ENV := ENV g; metrics := metrics g;
     inmemMetrics := inmemMetrics g; keen := x; now := now g;
     goroutines := goroutines g |}.

Definition with_now (x : Z) (g : World) : World :=
  {| c := c g; db := db g; ENV := ENV g; metrics := metrics g;
     inmemMetrics := inmemMetrics g; keen := keen g; now := x;
     goroutines := goroutines g |}.

Definition with_goroutines (x : list Task) (g : World) : World :=
  {| c := c g; db := db g; ENV := ENV g; metrics := metrics g;
     inmemMetrics := inmemMetrics g; keen := keen g; now := now g;
     goroutines := x |}.

(** The state of one run of the handler: the world, the response writer
    it was handed, and the calls made so far. *)
Record State := { world : World; w : http.ResponseWriter; trace : list Call }.

Definition M (A : Type) : Type := State -> A * State.

Definition ret {A} (a : A) : M A := fun s => (a, s).
Definition bind {A B} (m : M A) (k : A -> M B) : M B :=
  fun s => let '(a, s) := m s in k a s.

Notation "x <- m ;; k" := (bind m (fun x => k))
  (at level 100, m at next level, k at level 200, only parsing).
Notation "m ;; k" := (bind m (fun _ => k))
  (at level 100, k at level 200, only parsing, right associativity).

Definition call (e : Call) : M unit := fun s =>
  (tt, {| world := world s; w := w s; trace := (trace s ++ [e])%list |}).

Definition on_w (f : http.ResponseWriter -> http.ResponseWriter) : M unit :=
  fun s => (tt, {| world := world s; w := f (w s); trace := trace s |}).

Definition on_world (f : World -> World) : M unit :=
  fun s => (tt, {| world := f (world s); w := w s; trace := trace s |}).

Definition read {A} (f : World -> A) : M A := fun s => (f (world s), s).

Definition read_ENV : M string := read ENV.

(** [c.Get] and [c.Set] read the clock themselves. *)
Definition c_Get (k : string) : M (option string) :=
  call (CacheGet k) ;;
  read (fun g => cache.Get (c g) (now g) k).

Definition c_Set (k x : string) (d : Z) : M unit :=
  call (CacheSet k x d) ;;
  on_world (fun g => with_c (cache.Set_ (c g) (now g) k x d) g).

Definition go (t : Task) : M unit :=
  call (Go t) ;;
  on_world (fun g => with_goroutines (goroutines g ++ [t])%list g).

Definition Fprintf (format : string) : M unit :=
  call (Fprint (Sprintf format)) ;;
  on_w (http.Write (Sprintf format)).

Definition http_Error (error : string) (code : Z) : M unit :=
  call (Fprint (error +:+ String "010" "")) ;;
  on_w (http.Error error code).

(** A Go map read: the zero value when the key is absent. *)
Definition index (config : gmap string bool) (k : string) : bool :=
  default false (config !! k).

Definition toBoolean (value : string) : bool :=
  if decide (value = "1") then true
  else if decide (value = "true") then true
  else false.

Definition additionalData (iban : Iban) (intermediateResult : ValidationResult)
    (config : gmap string bool) : M ValidationResult :=
  intermediateResult <-
    match config !! "validateBankCode" with
    | Some true =>
        call (CallValidateBankCode iban) ;;
        read (fun g => ValidateBankCode iban intermediateResult (db g))
    | _ => ret intermediateResult
    end ;;
  match config !! "getBIC" with
  | Some true =>
      call (CallGetBic iban) ;;
      read (fun g => GetBic iban intermediateResult (db g))
  | _ => ret intermediateResult
  end.

Definition hitCache (iban : string) : M (string * bool) :=
  val <- c_Get iban ;;
  match val with
  | Some val => ret (val, true)
  | None => ret ("", false)
  end.

(** Processes requests to the /validate/ url *)
Definition validationHandler (r : http.Request) : M unit :=
  let config : gmap string bool := ∅ in
  on_w (http.Header_Add "Content-Type" "application/json; charset=utf-8") ;;
  on_w (http.Header_Set "Access-Control-Allow-Origin" "*") ;;
  let iban := http.ByName (http.ps r) "iban" in
  let validateBankCodeQueryParam := http.FormValue r "validateBankCode" in
  let config := <["validateBankCode" := toBoolean validateBankCodeQueryParam]> config in
  let getBicQueryParam := http.FormValue r "getBIC" in
  let config := <["getBIC" := toBoolean getBicQueryParam]> config in
  hit <- hitCache (iban +:+ strconv.FormatBool (index config "getBIC")
                        +:+ strconv.FormatBool (index config "validateBankCode")) ;;
  let '(value, found) := hit in
  if found then
    env <- read_ENV ;;
    go (LogFromCacheEntry env value) ;;
    Fprintf value
  else if (String.length iban =? 0)%nat then
    let res := (MarshalIndent (NewValidationResult false "Empty request." iban) "" "  ").1 in
    let strRes := res in
    on_w (http.Header_Add "Content-Length" (strconv.Itoa (String.length strRes))) ;;
    http_Error strRes http.StatusBadRequest
  else
    call (CallIsParseable iban) ;;
    let parserResult := IsParseable iban in
    if negb (Valid parserResult) then
      let res := (MarshalIndent
                    (NewValidationResult false
                       ("Cannot parse as IBAN: " +:+ Message parserResult) iban)
                    "" "  ").1 in
      let strRes := res in
      on_w (http.Header_Add "Content-Length" (strconv.Itoa (String.length strRes))) ;;
      c_Set (iban +:+ strconv.FormatBool (index config "getBIC")
                  +:+ strconv.FormatBool (index config "validateBankCode")) strRes 0 ;;
      Fprintf strRes
    else
      call (CallParseToIban iban) ;;
      let parsedIban := ParseToIban iban in
      call (CallValidate parsedIban) ;;
      let result := Validate parsedIban in
      result <- (if (0 <? size config)%nat
                then additionalData parsedIban result config
                else ret result) ;;
      let '(res, err) := MarshalIndent result "" "  " in
      match err with Some e => call (Println e) | None => ret tt end ;;
      let strRes := res in
      on_w (http.Header_Add "Content-Length" (strconv.Itoa (String.length strRes))) ;;
      env <- read_ENV ;;
      go (LogFromIbanResult env parsedIban) ;;
      let key := iban +:+ strconv.FormatBool (index config "getBIC")
                      +:+ strconv.FormatBool (index config "validateBankCode") in
      c_Set key strRes 0 ;;
      Fprintf strRes.

(** Only logs when metrics is defined *)
Definition logFromCacheEntry (ENV value : string) (g : World) : World :=
  match metrics g with
  | Some m =>
      with_keen (LogRequestFromValidationResult m ENV value (keen g)).1 g
  | None =>
      let result := (Unmarshal value).1 in
      with_inmemMetrics
        (Register (ValidationResultToEvent result) (inmemMetrics g)) g
  end.

(** Only logs when metrics is defined *)
Definition logFromIbanResult (ENV : string) (value : Iban) (g : World) : World :=
  match metrics g with
  | Some m => with_keen (WriteLogRequest m ENV value (keen g)).1 g
  | None =>
      with_inmemMetrics (Register (IbanToEvent value) (inmemMetrics g)) g
  end.

(** *** The process around the handler

    The HTTP server calls the handler with a fresh response writer; a
    started goroutine runs at some later point; the clock advances; the
    cache's janitor sweeps. *)
Definition start (g : World) : State :=
  {| world := g; w := http.NewRecorder; trace := [] |}.

Definition serve (r : http.Request) (g : World) : http.ResponseWriter * World :=
  let s := (validationHandler r (start g)).2 in
  (w s, world s).

Definition calls (r : http.Request) (g : World) : list Call :=
  trace (validationHandler r (start g)).2.

Definition run_task (t : Task) (g : World) : World :=
  match t with
  | LogFromCacheEntry ENV value => logFromCacheEntry ENV value g
  | LogFromIbanResult ENV value => logFromIbanResult ENV value g
  end.

(** The event a task hands to the register under the local strategy. *)
Definition event_of (t : Task) : Event :=
  match t with
  | LogFromCacheEntry ENV value => ValidationResultToEvent (Unmarshal value).1
  | LogFromIbanResult ENV value => IbanToEvent value
  end.

Definition run_goroutine (i : nat) (g : World) : World :=
  match goroutines g !! i with
  | Some t => run_task t (with_goroutines (delete i (goroutines g)) g)
  | None => g
  end.

Definition janitor (g : World) : World :=
  with_c (cache.DeleteExpired (c g) (now g)) g.

Definition tick (d : N) (g : World) : World :=
  with_now (now g + Z.of_N d) g.
End Service.

(** The steps of the process: a request served, the [i]-th pending goroutine
    run, the clock advanced, the janitor's sweep. *)
Inductive Action :=
| Serve (r : http.Request)
| RunGoroutine (i : nat)
| Tick (d : N)
| Sweep.

Section Process.
Context `{G : Goiban} {S : GoStd} {K : Metrics}.

Definition step (a : Action) (g : World) : option http.ResponseWriter * World :=
  match a with
  | Serve r => let '(resp, g) := serve r g in (Some resp, g)
  | RunGoroutine i => (None, run_goroutine i g)
  | Tick d => (None, tick d g)
  | Sweep => (None, janitor g)
  end.

(** The responses of a run, in order, and the world it ends in. *)
Fixpoint run (script : list Action) (g : World)
  : list http.ResponseWriter * World :=
  match script with
  | [] => ([], g)
  | a :: script =>
      let '(o, g) := step a g in
      let '(rs, g) := run script g in
      (match o with Some resp => resp :: rs | None => rs end, g)
  end.
End Process.

(** What the handler reads of the world: the cache, the database handle
    and the clock. *)
Definition handler_view `{G : Goiban} {K : Metrics} (g : World)
  : cache.Cache * DB * Z :=
  (c g, db g, now g).

(** A script with the runs of the goroutines left out. *)
Fixpoint without_goroutines (script : list Action) : list Action :=
  match script with
  | [] => []
  | RunGoroutine _ :: script => without_goroutines script
  | a :: script => a :: without_goroutines script
  end.

(** ** The request's derived data *)

Definition rawIban (r : http.Request) : string := http.ByName (http.ps r) "iban".

Definition wantBic (r : http.Request) : bool :=
  toBoolean (http.FormValue r "getBIC").

Definition wantBankCodeCheck (r : http.Request) : bool :=
  toBoolean (http.FormValue r "validateBankCode").

(** The key as the handler builds it, from the three values it depends on. *)
Definition key_of (iban : string) (getBIC validateBankCode : bool) : string :=
  iban +:+ strconv.FormatBool getBIC +:+ strconv.FormatBool validateBankCode.

Definition CacheKey (r : http.Request) : string :=
  key_of (rawIban r) (wantBic r) (wantBankCodeCheck r).

(** The map the handler fills from the query before it does anything else. *)
Definition config_of (r : http.Request) : gmap string bool :=
  <["getBIC" := wantBic r]> (<["validateBankCode" := wantBankCodeCheck r]> ∅).

(** The response writer after the two header lines every run starts with. *)
Definition json_headers (w : http.ResponseWriter) : http.ResponseWriter :=
  http.Header_Set "Access-Control-Allow-Origin" "*"
    (http.Header_Add "Content-Type" "application/json; charset=utf-8" w).

Definition with_length (strRes : string) (w : http.ResponseWriter)
  : http.ResponseWriter :=
  http.Header_Add "Content-Length" (strconv.Itoa (String.length strRes)) w.

Section Bodies.
Context `{G : Goiban} {S : GoStd}.

(** The string each path of the handler serializes ([strRes]). *)
Definition empty_body (iban : string) : string :=
  (MarshalIndent (NewValidationResult false "Empty request." iban) "" "  ").1.

Definition unparseable_body (iban : string) : string :=
  (MarshalIndent
     (NewValidationResult false
        ("Cannot parse as IBAN: " +:+ Message (IsParseable iban)) iban)
     "" "  ").1.

(** The result after the augmentation steps that were asked for. *)
Definition augmented (p : Iban) (validateBankCode getBIC : bool) (d : DB)
  : ValidationResult :=
  let result := Validate p in
  let result := if validateBankCode then ValidateBankCode p result d else result in
  if getBIC then GetBic p result d else result.

Definition fresh_body (r : http.Request) (d : DB) : string :=
  (MarshalIndent
     (augmented (ParseToIban (rawIban r)) (wantBankCodeCheck r) (wantBic r) d)
     "" "  ").1.

Definition fresh_error (r : http.Request) (d : DB) : option string :=
  (MarshalIndent
     (augmented (ParseToIban (rawIban r)) (wantBankCodeCheck r) (wantBic r) d)
     "" "  ").2.

(** What the handler prints when the serialization reports an error. *)
Definition println_calls (e : option string) : list Call :=
  match e with Some e => [Println e] | None => [] end.

(** The calls of a fresh computation between the cache probe and the
    serialization. *)
Definition validation_calls (r : http.Request) : list Call :=
  let iban := rawIban r in
  let p := ParseToIban iban in
  ([CallIsParseable iban; CallParseToIban iban; CallValidate p]
   ++ (if wantBankCodeCheck r then [CallValidateBankCode p] else [])
   ++ (if wantBic r then [CallGetBic p] else []))%list.
End Bodies.

(** The goroutines a run of the handler started, read off its calls. *)
Fixpoint started `{Goiban} (l : list Call) : list Task :=
  match l with
  | [] => []
  | Go t :: l => t :: started l
  | _ :: l => started l
  end.

(** The cache writes of a run, read off its calls. *)
Fixpoint cache_writes `{Goiban} (l : list Call) : list (string * string * Z) :=
  match l with
  | [] => []
  | CacheSet k x d :: l => (k, x, d) :: cache_writes l
  | _ :: l => cache_writes l
  end.


(** A request for [/validate/<iban>] with the given query. *)
Definition GET (iban : string) (query : list (string * list string)) : http.Request :=
  {| http.ps := [("iban", iban)]; http.Form := list_to_map query |}.

(** ** A sample set of collaborators

    Concrete stand-ins for the external packages, small enough to compute
    with.  The validator accepts strings of at least fifteen bytes; the JSON
    rendering echoes the fields of the result, the IBAN among them; the
    unmarshalling fails on anything that does not start with a brace and
    leaves its target nil then; the formatter follows [fmt] on verbs that
    carry no flag, width or index: a verb without an operand is rendered as
    [%!v(MISSING)], [%%] as a percent sign, a trailing percent sign as
    [%!(NOVERB)]; the local register is a list that accumulates the events
    in the order they arrive. *)
Module Sample.
Record Result := {
  valid : bool;
  messages : list string;
  iban : string;
  bankCode : string;
  bic : string
}.

Definition quote : string := String "034" "".
Definition nl : string := String "010" "".

Definition field (indent name value : string) : string :=
  indent +:+ quote +:+ name +:+ quote +:+ ": " +:+ value.

Definition str (s : string) : string := quote +:+ s +:+ quote.

Definition render (v : Result) (prefix indent : string) : string :=
  "{" +:+ nl
  +:+ field indent "valid" (strconv.FormatBool (valid v)) +:+ "," +:+ nl
  +:+ field indent "messages" ("[" +:+ String.concat ", " (str <$> messages v) +:+ "]")
  +:+ "," +:+ nl
  +:+ field indent "iban" (str (iban v)) +:+ "," +:+ nl
  +:+ field indent "bankCode" (str (bankCode v)) +:+ "," +:+ nl
  +:+ field indent "bic" (str (bic v)) +:+ nl
  +:+ "}".

Fixpoint sprintf (format : string) : string :=
  match format with
  | "" => ""
  | String "%" rest =>
      match rest with
      | "" => "%!(NOVERB)"
      | String "%" rest => String "%" (sprintf rest)
      | String verb rest => "%!" +:+ String verb "(MISSING)" +:+ sprintf rest
      end
  | String b rest => String b (sprintf rest)
  end.

Definition goiban : Goiban := {|
  Iban := string;
  ValidationResult := Result;
  DB := gmap string string;
  NewValidationResult := fun valid message iban =>
    {| valid := valid; messages := [message]; iban := iban;
       bankCode := ""; bic := "" |};
  IsParseable := fun s =>
    if (15 <=? String.length s)%nat
    then {| Valid := true; Message := "" |}
    else {| Valid := false; Message := "too short" |};
  ParseToIban := fun s => s;
  Validate := fun i =>
    {| valid := true; messages := []; iban := i; bankCode := ""; bic := "" |};
  ValidateBankCode := fun i v db =>
    {| valid := valid v; messages := messages v; iban := iban v;
       bankCode := String.substring 4 8 i; bic := bic v |};
  GetBic := fun i v db =>
    {| valid := valid v; messages := messages v; iban := iban v;
       bankCode := bankCode v;
       bic := default "" (db !! String.substring 4 8 i) |}
|}.

Definition marshal (v : Result) (prefix indent : string) : string * option string :=
  (render v prefix indent, None).

Definition unmarshal (data : string) : option Result * bool :=
  match data with
  | String "{" _ =>
      (Some {| valid := true; messages := []; iban := ""; bankCode := ""; bic := "" |},
       false)
  | _ => (None, true)
  end.

Definition gostd : @GoStd goiban := @Build_GoStd goiban marshal unmarshal sprintf.

(** A sink whose remote dispatch succeeds, and one whose dispatch fails. *)
Definition metrics_ok : @Metrics goiban :=
  @Build_Metrics goiban (option Result + string) (list string)
    (list (option Result + string)) [] (fun e reg => (reg ++ [e])%list)
    (fun v => inl v) (fun i => inr i)
    (fun m env value k => ((value :: k)%list, true))
    (fun m env value k => ((value :: k)%list, true)).

Definition metrics_failing : @Metrics goiban :=
  @Build_Metrics goiban unit unit unit tt (fun e reg => reg)
    (fun v => tt) (fun i => tt)
    (fun m env value k => (k, false))
    (fun m env value k => (k, false)).

(** The process as [main] leaves it when no remote credentials are given:
    an empty cache built by [cache.New(5*time.Minute, 30*time.Second)],
    the environment label [Test], no remote sink, an empty register. *)
Definition boot `{K : @Metrics goiban} (k : Keen) : @World goiban K := {|
  c := cache.New (5 * time.Minute) (30 * time.Second);
  db := {[ "37040044" := "COBADEFFXXX" ]};
  ENV := "Test";
  metrics := None;
  inmemMetrics := NewInmemMetricsRegister;
  keen := k;
  now := 0;
  goroutines := []
|}.

Definition world0 : @World goiban metrics_ok := boot (K := metrics_ok) [].

(** The same process started with remote credentials, its collector
    failing every dispatch. *)
Definition world_remote : @World goiban metrics_failing :=
  @Build_World goiban metrics_failing
    (cache.New (5 * time.Minute) (30 * time.Second))
    {[ "37040044" := "COBADEFFXXX" ]}
    "Live"
    (Some {| ProjectID := "project"; WriteAPIKey := "key" |})
    tt tt 0 [].

Definition DE89 : string := "DE89370400440532013000".


(** Two runs of the same two requests: one in which the goroutine of the
    first request runs before the second request, one in which the
    goroutines run at the end, out of order. *)
Definition script_prompt : list Action :=
  [Serve (GET DE89 []); RunGoroutine 0; Tick 1000; Serve (GET DE89 [])].

Definition script_late : list Action :=
  [Serve (GET DE89 []); Tick 1000; Serve (GET DE89 []);
   RunGoroutine 1; RunGoroutine 0].
End Sample.

(** ** Startup: [main] and [listen]

    [sql.Open] is the database driver's; it gives the handle and the error
    together, as in Go.  [nilDB] is the handle the package-level [db] holds
    before [listen] assigns it.  What [main] and [listen] print and log is
    kept as a list of lines; [listen] ends either in [log.Fatalf] or in the
    call of [http.ListenAndServe], which serves requests until it fails. *)
Class Sql `{Goiban} := {
  nilDB : DB;
  Open : string -> string -> DB * option string
}.

(** The handlers [listen] registers.  Only [validationHandler] is defined
    in this file of the service. *)
Inductive Handle :=
| h_validationHandler
| h_countryCodeHandler
| h_calculateIBAN
| h_calculateAndValidateIBAN
| h_inmemMetrics.

(** The router as [listen] configures it: the routes, with their method,
    and the directory served when no route matches, if any. *)
Record Router := {
  routes : list (string * string * Handle);
  NotFound : option string
}.

Record Server := {
  router : Router;
  AllowedOrigins : list string;
  AllowedMethods : list string
}.

Inductive Exit :=
| Returned
| Fatal (message : string)
| ListenAndServe (addr : string) (handler : Server).

Definition usage : string :=
  "usage: goiban-service <port> <dburl> [<env>] [keenProjectID] [keenWriteAPIKey]".

Section Startup.
Context `{G : Goiban} {S : GoStd} {K : Metrics} {Q : Sql}.

Definition with_db (x : DB) (g : World) : World :=
  {| c := c g; db := x; ENV := ENV g; metrics := metrics g;
     inmemMetrics := inmemMetrics g; keen := keen g; now := now g;
     goroutines := goroutines g |}.

Definition with_ENV (x : string) (g : World) : World :=
  {| c := c g; db := db g; ENV := x; metrics := metrics g;
     inmemMetrics := inmemMetrics g; keen := keen g; now := now g;
     goroutines := goroutines g |}.

Definition with_metrics (x : option KeenMetrics) (g : World) : World :=
  {| c := c g; db := db g; ENV := ENV g; metrics := x;
     inmemMetrics := inmemMetrics g; keen := keen g; now := now g;
     goroutines := goroutines g |}.

(** The package-level variables as their declarations initialize them,
    with the remote collector and the clock as the process finds them. *)
Definition package_vars (k : Keen) (t : Z) : World :=
  {| c := cache.New (5 * time.Minute) (30 * time.Second);
     db := nilDB;
     ENV := "";
     metrics := None;
     inmemMetrics := NewInmemMetricsRegister;
     keen := k;
     now := t;
     goroutines := [] |}.

Definition listen (port environment dbUrl : string) (g : World)
  : list string * Exit * World :=
  let out := ["Setting env to " +:+ environment] in
  let '(d, err) := Open "mysql" dbUrl in
  let g := with_db d g in
  match err with
  | Some e => ((out ++ ["Error opening DB connection: " +:+ e])%list, Fatal
                 ("Error opening DB connection: " +:+ e), g)
  | None =>
      let router :=
        {| routes :=
             [("GET", "/validate/:iban", h_validationHandler);
              ("GET", "/countries", h_countryCodeHandler);
              ("GET", "/calculate/:countryCode/:bankCode/:accountNumber",
               h_calculateIBAN);
              ("GET", "/v2/calculate/:countryCode/:bankCode/:accountNumber",
               h_calculateAndValidateIBAN);
              ("GET", "/metrics", h_inmemMetrics)];
           NotFound :=
             if decide (environment = "Live" \/ environment = "Test")
             then Some "static" else None |} in
      let handler :=
        {| router := router;
           AllowedOrigins := ["*"];
           AllowedMethods := ["GET"] |} in
      (out, ListenAndServe (":" +:+ port) handler, g)
  end.

(** [os.Args[i]], read where the length check before it makes it safe. *)
Definition arg (Args : list string) (i : nat) : string := default "" (Args !! i).

Definition main (Args : list string) (g : World) : list string * Exit * World :=
  if (length Args <? 3)%nat then ([usage], Returned, g)
  else
    let port := arg Args 1 in
    let mysqlURL := arg Args 2 in
    let g :=
      if (length Args <? 6)%nat then with_ENV "Test" g
      else
        with_metrics
          (Some {| ProjectID := arg Args 4; WriteAPIKey := arg Args 5 |})
          (with_ENV (arg Args 3) g) in
    listen port (ENV g) mysqlURL g.

(** The world the server runs in, once [main] has reached
    [http.ListenAndServe]. *)
Definition serving (Args : list string) (k : Keen) (t : Z) : option World :=
  match main Args (package_vars k t) with
  | (_, ListenAndServe _ _, g) => Some g
  | _ => None
  end.
End Startup.

(** ** Views of a request and of a script *)

(** The three values of a request the handler depends on. *)
Definition request_triple (r : http.Request) : string * bool * bool :=
  (rawIban r, wantBic r, wantBankCodeCheck r).

(** A script with the janitor's sweeps left out. *)
Fixpoint without_sweeps (script : list Action) : list Action :=
  match script with
  | [] => []
  | Sweep :: script => without_sweeps script
  | a :: script => a :: without_sweeps script
  end.

(** The requests of a script, in order. *)
Fixpoint requests (script : list Action) : list http.Request :=
  match script with
  | [] => []
  | Serve r :: script => r :: requests script
  | _ :: script => requests script
  end.

(** The time a script lets pass. *)
Fixpoint elapsed (script : list Action) : Z :=
  match script with
  | [] => 0
  | Tick d :: script => Z.of_N d + elapsed script
  | _ :: script => elapsed script
  end.

(** Two caches answer every read alike, from time [t] on. *)
Definition reads_alike (t : Z) (c1 c2 : cache.Cache) : Prop :=
  cache.defaultExpiration c1 = cache.defaultExpiration c2
  /\ forall (t' : Z) (k : string), t <= t' ->
       cache.Get c1 t' k = cache.Get c2 t' k.

Section Views.
Context `{G : Goiban} {S : GoStd} {K : Metrics}.

(** The string a miss on a non-empty IBAN serializes, on either path. *)
Definition computed_body (r : http.Request) (d : DB) : string :=
  if Valid (IsParseable (rawIban r)) then fresh_body r d
  else unparseable_body (rawIban r).

(** What startup sets and a run is not to change. *)
Definition settings (g : World)
  : string * option KeenMetrics * DB * Z * Z :=
  (ENV g, metrics g, db g, cache.defaultExpiration (c g),
   cache.cleanupInterval (c g)).

(** Two worlds the handler cannot tell apart, now or later. *)
Definition same_reads (g1 g2 : World) : Prop :=
  db g1 = db g2 /\ now g1 = now g2 /\ reads_alike (now g1) (c g1) (c g2).

(** Every entry expires, and within five minutes of the present. *)
Definition short_lived (g : World) : Prop :=
  cache.defaultExpiration (c g) = 5 * time.Minute
  /\ 0 <= now g
  /\ forall (k : string) (it : cache.Item),
       cache.items (c g) !! k = Some it ->
       0 < cache.Expiration it <= now g + 5 * time.Minute.

(** Every key in the cache was built from a non-empty IBAN. *)
Definition keys_nonempty (g : World) : Prop :=
  forall k : string, is_Some (cache.items (c g) !! k) ->
    exists (iban : string) (b v : bool), iban <> "" /\ k = key_of iban b v.
End Views.

(** Sample startup data. *)
Module SampleStartup.
Definition sql : @Sql Sample.goiban :=
  @Build_Sql Sample.goiban ∅
    (fun driver dsn =>
       if decide (dsn = "") then (∅, Some "invalid DSN")
       else ({[ "37040044" := "COBADEFFXXX" ]}, None)).

Definition args_local : list string :=
  ["goiban-service"; "8080"; "root:root@/goiban"; "Live"].

Definition args_remote : list string :=
  ["goiban-service"; "8080"; "root:root@/goiban"; "Staging"; "project"; "key"].

Definition two_requests : list Action :=
  [Serve (GET Sample.DE89 []); Tick 1000; Sweep; RunGoroutine 0;
   Serve (GET "" []); Serve (GET Sample.DE89 [])].

(** The server [main] hands to [http.ListenAndServe] for [args_remote]. *)
Definition server_remote : Server :=
  match (@main Sample.goiban Sample.metrics_ok sql args_remote
           (@package_vars Sample.goiban Sample.metrics_ok sql
              (keen Sample.world0) 0)).1.2 with
  | ListenAndServe _ handler => handler
  | _ => {| router := {| routes := []; NotFound := None |};
            AllowedOrigins := []; AllowedMethods := [] |}
  end.
End SampleStartup.

(** * Properties *)

(** ** The four paths of the handler *)

Lemma length_zero (s : string) : (String.length s =? 0)%nat = true <-> s = "".
Proof.
  destruct s; simpl; split; intros H; try done.
Qed.

Lemma length_nonzero (s : string) : s <> "" -> (String.length s =? 0)%nat = false.
Proof.
  intros H. destruct ((String.length s =? 0)%nat) eqn:E; [|done].
  by apply length_zero in E.
Qed.

Section HandlerPaths.
Context `{G : Goiban} {S : GoStd} {K : Metrics}.

Lemma config_lookup_getBIC r : config_of r !! "getBIC" = Some (wantBic r).
Proof. unfold config_of. by rewrite lookup_insert_eq. Qed.

Lemma config_lookup_validateBankCode r :
  config_of r !! "validateBankCode" = Some (wantBankCodeCheck r).
Proof.
  unfold config_of. rewrite lookup_insert_ne by done.
  by rewrite lookup_insert_eq.
Qed.

Lemma config_getBIC r : index (config_of r) "getBIC" = wantBic r.
Proof. unfold index. by rewrite config_lookup_getBIC. Qed.

Lemma config_validateBankCode r :
  index (config_of r) "validateBankCode" = wantBankCodeCheck r.
Proof. unfold index. by rewrite config_lookup_validateBankCode. Qed.

Lemma config_size r : size (config_of r) = 2%nat.
Proof.
  unfold config_of. rewrite map_size_insert_None.
  - by rewrite map_size_insert_None, map_size_empty by apply lookup_empty.
  - rewrite lookup_insert_ne by done. apply lookup_empty.
Qed.

(** Names the request's derived data in the unfolded handler. *)
Ltac name_request r :=
  unfold validationHandler;
  fold (wantBic r) (wantBankCodeCheck r) (rawIban r) (config_of r);
  rewrite ?config_getBIC, ?config_validateBankCode, ?config_size;
  fold (key_of (rawIban r) (wantBic r) (wantBankCodeCheck r));
  fold (CacheKey r).

Ltac run_handler :=
  unfold bind, hitCache, c_Get, c_Set, go, Fprintf, http_Error, read_ENV,
    bind, call, read, on_w, on_world, ret; cbn.

Lemma validationHandler_hit r s value :
  cache.Get (c (world s)) (now (world s)) (CacheKey r) = Some value ->
  validationHandler r s =
    (tt, {| world := with_goroutines
              (goroutines (world s) ++ [LogFromCacheEntry (ENV (world s)) value])%list
              (world s);
            w := http.Write (Sprintf value) (json_headers (w s));
            trace := (trace s ++ [CacheGet (CacheKey r);
                                 Go (LogFromCacheEntry (ENV (world s)) value);
                                 Fprint (Sprintf value)])%list |}).
Proof.
  intros Hget. name_request r. run_handler. rewrite Hget. cbn.
  by rewrite <- !app_assoc.
Qed.

Lemma validationHandler_empty r s :
  cache.Get (c (world s)) (now (world s)) (CacheKey r) = None ->
  rawIban r = "" ->
  validationHandler r s =
    (tt, {| world := world s;
            w := http.Error (empty_body "") http.StatusBadRequest
                   (with_length (empty_body "") (json_headers (w s)));
            trace := (trace s ++ [CacheGet (CacheKey r);
                                 Fprint (empty_body "" +:+ String "010" "")])%list |}).
Proof.
  intros Hget Hempty. name_request r. run_handler. rewrite Hget. cbn.
  rewrite Hempty. cbn. by rewrite <- !app_assoc.
Qed.

Lemma validationHandler_unparseable r s :
  cache.Get (c (world s)) (now (world s)) (CacheKey r) = None ->
  rawIban r <> "" ->
  Valid (IsParseable (rawIban r)) = false ->
  let strRes := unparseable_body (rawIban r) in
  validationHandler r s =
    (tt, {| world := with_c (cache.Set_ (c (world s)) (now (world s))
                               (CacheKey r) strRes 0) (world s);
            w := http.Write (Sprintf strRes)
                   (with_length strRes (json_headers (w s)));
            trace := (trace s ++ [CacheGet (CacheKey r);
                                 CallIsParseable (rawIban r);
                                 CacheSet (CacheKey r) strRes 0;
                                 Fprint (Sprintf strRes)])%list |}).
Proof.
  intros Hget Hne Hinv strRes. name_request r. run_handler. rewrite Hget. cbn.
  rewrite (length_nonzero _ Hne), Hinv. cbn. by rewrite <- !app_assoc.
Qed.

Lemma validationHandler_fresh r s :
  cache.Get (c (world s)) (now (world s)) (CacheKey r) = None ->
  rawIban r <> "" ->
  Valid (IsParseable (rawIban r)) = true ->
  let g := world s in
  let strRes := fresh_body r (db g) in
  let task := LogFromIbanResult (ENV g) (ParseToIban (rawIban r)) in
  validationHandler r s =
    (tt, {| world := with_c (cache.Set_ (c g) (now g) (CacheKey r) strRes 0)
                       (with_goroutines (goroutines g ++ [task])%list g);
            w := http.Write (Sprintf strRes)
                   (with_length strRes (json_headers (w s)));
            trace := (trace s ++ [CacheGet (CacheKey r)] ++ validation_calls r
                      ++ match fresh_error r (db g) with
                         | Some e => [Println e]
                         | None => []
                         end
                      ++ [Go task; CacheSet (CacheKey r) strRes 0;
                          Fprint (Sprintf strRes)])%list |}).
Proof.
  intros Hget Hne Hval g strRes task. subst g strRes task.
  name_request r. run_handler. rewrite Hget. cbn.
  rewrite (length_nonzero _ Hne), Hval. cbn.
  unfold additionalData. run_handler.
  rewrite config_lookup_validateBankCode, config_lookup_getBIC.
  unfold fresh_body, fresh_error, augmented, validation_calls.
  destruct (wantBankCodeCheck r), (wantBic r); cbn;
    match goal with
    | |- context [MarshalIndent ?v ?a ?b] =>
        destruct (MarshalIndent v a b) as [res [e|]]
    end; cbn; by rewrite <- !app_assoc.
Qed.
End HandlerPaths.

(** ** The cache *)

Lemma Get_Set_ (c : cache.Cache) (now t : Z) (k x : string) (d : Z) :
  cache.Get (cache.Set_ c now k x d) t k =
    let d := if d =? 0 then cache.defaultExpiration c else d in
    let e := if 0 <? d then now + d else 0 in
    if (0 <? e) && (e <? t) then None else Some x.
Proof. unfold cache.Get, cache.Set_. cbn. by rewrite lookup_insert_eq. Qed.

(** An entry is found by a read made at the time of its write, whatever the
    duration and the cache's default. *)
Lemma Get_Set_now (c : cache.Cache) (now : Z) (k x : string) (d : Z) :
  cache.Get (cache.Set_ c now k x d) now k = Some x.
Proof.
  rewrite Get_Set_. cbv zeta.
  set (d' := if d =? 0 then _ else d).
  destruct (Z.ltb_spec 0 d'); [|done].
  destruct (Z.ltb_spec (now + d') now); [lia|]. by rewrite andb_false_r.
Qed.

(** With the default expiration of five minutes, an entry written with
    duration [0] is found until five minutes after the write, and not
    after. *)
Lemma Get_Set_default (c : cache.Cache) (now t : Z) (k x : string) :
  cache.defaultExpiration c = 5 * time.Minute ->
  0 <= now ->
  cache.Get (cache.Set_ c now k x 0) t k =
    if t <=? now + 5 * time.Minute then Some x else None.
Proof.
  intros Hd Hnow. rewrite Get_Set_, Hd.
  change (0 =? 0) with true. cbv beta iota zeta.
  change (5 * time.Minute) with 300000000000.
  change (0 <? 300000000000) with true. cbv beta iota.
  destruct (Z.ltb_spec 0 (now + 300000000000)); [|lia].
  destruct (Z.leb_spec t (now + 300000000000)),
    (Z.ltb_spec (now + 300000000000) t); try done; lia.
Qed.

Lemma DeleteExpired_lookup (c : cache.Cache) (t : Z) (k : string) :
  cache.items (cache.DeleteExpired c t) !! k =
    match cache.items c !! k with
    | Some it => if cache.Expired t it then None else Some it
    | None => None
    end.
Proof.
  unfold cache.DeleteExpired. cbn.
  destruct (cache.items c !! k) as [it|] eqn:E.
  - destruct (cache.Expired t it) eqn:Ex.
    + apply map_lookup_filter_None. right. intros it' E'. cbn.
      rewrite E in E'. injection E' as <-. by rewrite Ex.
    + apply map_lookup_filter_Some. by split.
  - apply map_lookup_filter_None. by left.
Qed.

(** The janitor's sweep does not change what a read at that time finds. *)
Lemma Get_DeleteExpired (c : cache.Cache) (t : Z) (k : string) :
  cache.Get (cache.DeleteExpired c t) t k = cache.Get c t k.
Proof.
  unfold cache.Get. rewrite DeleteExpired_lookup.
  destruct (cache.items c !! k) as [it|]; [|done].
  destruct (cache.Expired t it) eqn:Ex; [done|]. by rewrite Ex.
Qed.

(** ** A run of the handler, path by path *)

Section Runs.
Context `{G : Goiban} {S : GoStd} {K : Metrics}.

Lemma started_app (l1 l2 : list Call) :
  started (l1 ++ l2) = (started l1 ++ started l2)%list.
Proof.
  induction l1 as [|e l1 IH]; [done|].
  destruct e; cbn; by rewrite ?IH.
Qed.

Lemma cache_writes_app (l1 l2 : list Call) :
  cache_writes (l1 ++ l2) = (cache_writes l1 ++ cache_writes l2)%list.
Proof.
  induction l1 as [|e l1 IH]; [done|].
  destruct e; cbn; by rewrite ?IH.
Qed.


(** The calls of a run, in program order. *)
Lemma calls_spec r g :
  calls r g =
    CacheGet (CacheKey r) ::
    match cache.Get (c g) (now g) (CacheKey r) with
    | Some value =>
        [Go (LogFromCacheEntry (ENV g) value); Fprint (Sprintf value)]
    | None =>
        if decide (rawIban r = "") then
          [Fprint (empty_body "" +:+ String "010" "")]
        else if Valid (IsParseable (rawIban r)) then
          (validation_calls r ++ println_calls (fresh_error r (db g))
           ++ [Go (LogFromIbanResult (ENV g) (ParseToIban (rawIban r)));
               CacheSet (CacheKey r) (fresh_body r (db g)) 0;
               Fprint (Sprintf (fresh_body r (db g)))])%list
        else
          [CallIsParseable (rawIban r);
           CacheSet (CacheKey r) (unparseable_body (rawIban r)) 0;
           Fprint (Sprintf (unparseable_body (rawIban r)))]
    end.
Proof.
  unfold calls.
  destruct (cache.Get (c g) (now g) (CacheKey r)) as [value|] eqn:Hget.
  - by rewrite (validationHandler_hit r (start g) value).
  - destruct (decide (rawIban r = "")) as [He|Hne].
    + by rewrite (validationHandler_empty r (start g)).
    + destruct (Valid (IsParseable (rawIban r))) eqn:Hv.
      * by rewrite (validationHandler_fresh r (start g)).
      * by rewrite (validationHandler_unparseable r (start g)).
Qed.

(** The response of a run and the world it leaves. *)
Lemma serve_spec r g :
  serve r g =
    match cache.Get (c g) (now g) (CacheKey r) with
    | Some value =>
        (http.Write (Sprintf value) (json_headers http.NewRecorder),
         with_goroutines
           (goroutines g ++ [LogFromCacheEntry (ENV g) value])%list g)
    | None =>
        if decide (rawIban r = "") then
          (http.Error (empty_body "") http.StatusBadRequest
             (with_length (empty_body "") (json_headers http.NewRecorder)),
           g)
        else if Valid (IsParseable (rawIban r)) then
          let strRes := fresh_body r (db g) in
          (http.Write (Sprintf strRes)
             (with_length strRes (json_headers http.NewRecorder)),
           with_c (cache.Set_ (c g) (now g) (CacheKey r) strRes 0)
             (with_goroutines
                (goroutines g
                 ++ [LogFromIbanResult (ENV g) (ParseToIban (rawIban r))])%list
                g))
        else
          let strRes := unparseable_body (rawIban r) in
          (http.Write (Sprintf strRes)
             (with_length strRes (json_headers http.NewRecorder)),
           with_c (cache.Set_ (c g) (now g) (CacheKey r) strRes 0) g)
    end.
Proof.
  unfold serve.
  destruct (cache.Get (c g) (now g) (CacheKey r)) as [value|] eqn:Hget.
  - by rewrite (validationHandler_hit r (start g) value).
  - destruct (decide (rawIban r = "")) as [He|Hne].
    + by rewrite (validationHandler_empty r (start g)).
    + destruct (Valid (IsParseable (rawIban r))) eqn:Hv.
      * by rewrite (validationHandler_fresh r (start g)).
      * by rewrite (validationHandler_unparseable r (start g)).
Qed.

Lemma started_validation_calls r : started (validation_calls r) = [].
Proof. unfold validation_calls. by destruct (wantBankCodeCheck r), (wantBic r). Qed.

Lemma cache_writes_validation_calls r : cache_writes (validation_calls r) = [].
Proof. unfold validation_calls. by destruct (wantBankCodeCheck r), (wantBic r). Qed.

Lemma started_println e : started (println_calls e) = [].
Proof. by destruct e. Qed.

Lemma cache_writes_println e : cache_writes (println_calls e) = [].
Proof. by destruct e. Qed.

End Runs.

(** ** The cache key *)

Lemma toBoolean_true (value : string) :
  toBoolean value = true <-> value = "1" \/ value = "true".
Proof.
  unfold toBoolean. repeat case_decide; split; intros; try done; auto.
  by destruct H1.
Qed.

Lemma FormValue_absent (r : http.Request) (key : string) :
  http.Form r !! key = None -> http.FormValue r key = "".
Proof. intros H. unfold http.FormValue. by rewrite H. Qed.

Lemma list_ascii_of_string_app (s1 s2 : string) :
  list_ascii_of_string (s1 +:+ s2) =
    (list_ascii_of_string s1 ++ list_ascii_of_string s2)%list.
Proof. induction s1 as [|a s1 IH]; simpl; [done | by f_equal]. Qed.

Lemma list_ascii_of_string_inj (s1 s2 : string) :
  list_ascii_of_string s1 = list_ascii_of_string s2 -> s1 = s2.
Proof.
  intros H. rewrite <- (string_of_list_ascii_of_string s1),
    <- (string_of_list_ascii_of_string s2). by rewrite H.
Qed.

Lemma rev_eq_inv {A : Type} (l1 l2 : list A) : rev l1 = rev l2 -> l1 = l2.
Proof.
  intros H. rewrite <- (rev_involutive l1), <- (rev_involutive l2). by rewrite H.
Qed.

(** Read from the end, a key starts with its two flags; the four pairs of
    flags differ within their first eight bytes. *)
Lemma key_of_inj (i1 i2 : string) (b1 v1 b2 v2 : bool) :
  key_of i1 b1 v1 = key_of i2 b2 v2 -> i1 = i2 /\ b1 = b2 /\ v1 = v2.
Proof.
  intros H. apply (f_equal list_ascii_of_string) in H. unfold key_of in H.
  rewrite !list_ascii_of_string_app in H.
  apply (f_equal (@rev ascii)) in H. rewrite !rev_app_distr in H.
  destruct b1, v1, b2, v2; cbn in H; try discriminate H;
    (split; [|done]); apply list_ascii_of_string_inj, rev_eq_inv;
    by simplify_eq.
Qed.

Section CacheKey.
Context `{G : Goiban} {S : GoStd} {K : Metrics}.

(** C5: the handler probes the cache, and writes it, under the key
    [rawIban ++ FormatBool(getBIC flag) ++ FormatBool(validateBankCode
    flag)], in that order; each flag is true exactly when the query
    parameter's value is ["1"] or ["true"], and false when the parameter is
    absent. *)
Theorem cache_key_construction (r : http.Request) (g : World) :
  let key := rawIban r +:+ strconv.FormatBool (wantBic r)
                       +:+ strconv.FormatBool (wantBankCodeCheck r) in
  (exists rest, calls r g = CacheGet key :: rest)
  /\ Forall (fun kxd => kxd.1.1 = key) (cache_writes (calls r g))
  /\ (wantBic r = true <->
      http.FormValue r "getBIC" = "1" \/ http.FormValue r "getBIC" = "true")
  /\ (wantBankCodeCheck r = true <->
      http.FormValue r "validateBankCode" = "1"
      \/ http.FormValue r "validateBankCode" = "true")
  /\ (http.Form r !! "getBIC" = None -> wantBic r = false)
  /\ (http.Form r !! "validateBankCode" = None -> wantBankCodeCheck r = false).
Proof.
  intros key. change key with (CacheKey r). clear key.
  split; [|split; [|split; [|split; [|split]]]].
  - rewrite calls_spec. eauto.
  - rewrite calls_spec.
    change (cache_writes (CacheGet ?k :: ?l)) with (cache_writes l).
    destruct (cache.Get _ _ _); [by constructor|].
    destruct (decide _); [by constructor|].
    destruct (Valid _).
    + rewrite !cache_writes_app, cache_writes_validation_calls,
        cache_writes_println. by repeat constructor.
    + by repeat constructor.
  - apply toBoolean_true.
  - apply toBoolean_true.
  - intros H. unfold wantBic. by rewrite (FormValue_absent _ _ H).
  - intros H. unfold wantBankCodeCheck. by rewrite (FormValue_absent _ _ H).
Qed.
End CacheKey.

(** C10: two distinct triples (IBAN, BIC flag, bank-code flag) never give
    the same key, and the two-flag suffix of one key is never a proper
    suffix of the two-flag suffix of another. *)
Theorem cache_key_injective (i1 i2 : string) (b1 v1 b2 v2 : bool) :
  (i1, b1, v1) <> (i2, b2, v2) ->
  key_of i1 b1 v1 <> key_of i2 b2 v2
  /\ (forall x : string, x <> "" ->
      strconv.FormatBool b1 +:+ strconv.FormatBool v1 <>
      x +:+ strconv.FormatBool b2 +:+ strconv.FormatBool v2).
Proof.
  intros Hne. split.
  - intros H. apply key_of_inj in H as (-> & -> & ->). by apply Hne.
  - intros x Hx H.
    apply (key_of_inj "" x b1 v1 b2 v2) in H as [H _]. by apply Hx.
Qed.

Lemma cache_key_injective_witness :
  ("DE89370400440532013000", false, false) <> ("DE89370400440532013000", true, false)
  /\ key_of "DE89370400440532013000" false false
     <> key_of "DE89370400440532013000" true false.
Proof.
  assert (H : ("DE89370400440532013000", false, false)
              <> ("DE89370400440532013000", true, false)) by discriminate.
  split; [exact H|]. exact (proj1 (cache_key_injective _ _ _ _ _ _ H)).
Defined.

(** ** The pipeline *)

Section Pipeline.
Context `{G : Goiban} {S : GoStd} {K : Metrics}.

Lemma started_calls r g :
  started (calls r g) =
    match cache.Get (c g) (now g) (CacheKey r) with
    | Some value => [LogFromCacheEntry (ENV g) value]
    | None =>
        if decide (rawIban r = "") then []
        else if Valid (IsParseable (rawIban r))
             then [LogFromIbanResult (ENV g) (ParseToIban (rawIban r))]
             else []
    end.
Proof.
  rewrite calls_spec.
  change (started (CacheGet ?k :: ?l)) with (started l).
  destruct (cache.Get _ _ _); [done|].
  destruct (decide _); [done|].
  destruct (Valid _); [|done].
  by rewrite !started_app, started_validation_calls, started_println.
Qed.

Lemma cache_writes_calls r g :
  cache_writes (calls r g) =
    match cache.Get (c g) (now g) (CacheKey r) with
    | Some value => []
    | None =>
        if decide (rawIban r = "") then []
        else if Valid (IsParseable (rawIban r))
             then [(CacheKey r, fresh_body r (db g), 0)]
             else [(CacheKey r, unparseable_body (rawIban r), 0)]
    end.
Proof.
  rewrite calls_spec.
  change (cache_writes (CacheGet ?k :: ?l)) with (cache_writes l).
  destruct (cache.Get _ _ _); [done|].
  destruct (decide _); [done|].
  destruct (Valid _); [|done].
  by rewrite !cache_writes_app, cache_writes_validation_calls,
    cache_writes_println.
Qed.

(** The goroutines a run leaves pending are those it started. *)
Lemma goroutines_serve r g :
  goroutines (serve r g).2 = (goroutines g ++ started (calls r g))%list.
Proof.
  rewrite started_calls, serve_spec.
  destruct (cache.Get _ _ _); [done|].
  destruct (decide _); [by rewrite app_nil_r|].
  destruct (Valid _); [done|]. by rewrite app_nil_r.
Qed.

(** Under the local strategy each of the two logging functions calls
    [Register] exactly once, on the event built from its operand. *)
Lemma run_task_local t g :
  metrics g = None ->
  inmemMetrics (run_task t g) = Register (event_of t) (inmemMetrics g).
Proof.
  intros Hm. destruct t; cbn;
    unfold logFromCacheEntry, logFromIbanResult; by rewrite Hm.
Qed.

(** C1, amended: a cache hit starts exactly one goroutine, which logs from
    the cached body; a fresh computation starts exactly one, which logs
    from the parsed IBAN; the empty-input guard and the unparseable
    verdict start none.  The goroutines left pending are those started,
    and under the local strategy each one, when it runs, calls [Register]
    once, on the event built from its operand. *)
Theorem metrics_logs_started (r : http.Request) (g : World) :
  started (calls r g) =
    match cache.Get (c g) (now g) (CacheKey r) with
    | Some value => [LogFromCacheEntry (ENV g) value]
    | None =>
        if decide (rawIban r = "") then []
        else if Valid (IsParseable (rawIban r))
             then [LogFromIbanResult (ENV g) (ParseToIban (rawIban r))]
             else []
    end
  /\ goroutines (serve r g).2 = (goroutines g ++ started (calls r g))%list
  /\ Forall (fun t => forall g' : World, metrics g' = None ->
               inmemMetrics (run_task t g')
               = Register (event_of t) (inmemMetrics g'))
       (started (calls r g)).
Proof.
  split; [apply started_calls|]. split; [apply goroutines_serve|].
  apply Forall_forall. intros t _ g'. apply run_task_local.
Qed.

(** C4: an empty IBAN whose key is not cached is answered with status 400
    and the serialized result [valid:false], ["Empty request."] followed
    by a newline; the world, the cache in it, is left as it was, no
    goroutine is started, and the same request served again takes the
    same path: a miss and the full answer. *)
Theorem empty_request_rejected_uncached (r : http.Request) (g : World) :
  rawIban r = "" ->
  cache.Get (c g) (now g) (CacheKey r) = None ->
  let strRes :=
    (MarshalIndent (NewValidationResult false "Empty request." "") "" "  ").1 in
  http.Code (serve r g).1 = Some 400
  /\ http.Body (serve r g).1 = strRes +:+ String "010" ""
  /\ (serve r g).2 = g
  /\ cache_writes (calls r g) = []
  /\ started (calls r g) = []
  /\ serve r (serve r g).2 = serve r g
  /\ calls r (serve r g).2 =
       [CacheGet (CacheKey r); Fprint (strRes +:+ String "010" "")].
Proof.
  intros Hempty Hmiss strRes.
  assert (Hs : (serve r g).2 = g).
  { rewrite serve_spec, Hmiss. by rewrite decide_True. }
  rewrite Hs, cache_writes_calls, started_calls, calls_spec, serve_spec, Hmiss.
  rewrite !decide_True by done. done.
Qed.

(** C2, amended: a non-empty input that the validator cannot parse is
    answered with status 200; the serialized result ([valid:false],
    ["Cannot parse as IBAN: "] followed by the parser's diagnostic) is
    what the handler hands to [fmt.Fprintf] and what it stores under the
    cache key, with duration [0], the cache's default expiration.  In a
    cache built with a default of five minutes the entry expires five
    minutes after the write: it is found until then, is not found after,
    and a sweep after that removes it. *)
Theorem unparseable_cached_for_default_expiration (r : http.Request) (g : World) :
  cache.Get (c g) (now g) (CacheKey r) = None ->
  rawIban r <> "" ->
  Valid (IsParseable (rawIban r)) = false ->
  cache.defaultExpiration (c g) = 5 * time.Minute ->
  0 <= now g ->
  let strRes :=
    (MarshalIndent
       (NewValidationResult false
          ("Cannot parse as IBAN: " +:+ Message (IsParseable (rawIban r)))
          (rawIban r)) "" "  ").1 in
  let g' := (serve r g).2 in
  http.Code (serve r g).1 = Some 200
  /\ http.Body (serve r g).1 = Sprintf strRes
  /\ cache_writes (calls r g) = [(CacheKey r, strRes, 0)]
  /\ cache.items (c g') !! CacheKey r
     = Some {| cache.Object := strRes;
               cache.Expiration := now g + 5 * time.Minute |}
  /\ (forall t, t <= now g + 5 * time.Minute ->
        cache.Get (c g') t (CacheKey r) = Some strRes)
  /\ (forall t, now g + 5 * time.Minute < t ->
        cache.Get (c g') t (CacheKey r) = None
        /\ cache.items (c (janitor (with_now t g'))) !! CacheKey r = None).
Proof.
  intros Hmiss Hne Hinv Hd Hnow strRes g'. subst g'.
  rewrite cache_writes_calls, serve_spec, Hmiss.
  rewrite !decide_False by done. rewrite Hinv.
  fold (unparseable_body (rawIban r)) in strRes. subst strRes.
  cbv zeta. cbn [fst snd c with_c].
  assert (Hit : cache.items
            (cache.Set_ (c g) (now g) (CacheKey r)
               (unparseable_body (rawIban r)) 0) !! CacheKey r
          = Some {| cache.Object := unparseable_body (rawIban r);
                    cache.Expiration := now g + 5 * time.Minute |}).
  { unfold cache.Set_. cbn [cache.items]. rewrite lookup_insert_eq, Hd.
    change (0 =? cache.DefaultExpiration) with true. cbv iota.
    by change (0 <? 5 * time.Minute) with true. }
  split; [done|]. split; [done|]. split; [done|]. split; [exact Hit|].
  split.
  - intros t Ht. rewrite (Get_Set_default _ _ _ _ _ Hd Hnow).
    destruct (Z.leb_spec t (now g + 5 * time.Minute)); [done|lia].
  - intros t Ht. split.
    + rewrite (Get_Set_default _ _ _ _ _ Hd Hnow).
      destruct (Z.leb_spec t (now g + 5 * time.Minute)); [lia|done].
    + unfold janitor. cbn [c with_c with_now now].
      rewrite DeleteExpired_lookup, Hit. unfold cache.Expired.
      cbn [cache.Expiration].
      change (5 * time.Minute) with 300000000000 in *.
      destruct (Z.ltb_spec 0 (now g + 300000000000)); [|lia].
      destruct (Z.ltb_spec (now g + 300000000000) t); [done|lia].
Qed.
End Pipeline.

Section Augmentation.
Context `{G : Goiban} {S : GoStd} {K : Metrics}.


Lemma Body_Write (b : string) (w : http.ResponseWriter) :
  http.Body w = "" -> http.Body (http.Write b w) = b.
Proof. intros H. unfold http.Write. cbn. by rewrite H. Qed.


End Augmentation.

(** ** Cache hits *)

Section Hits.
Context `{G : Goiban} {S : GoStd} {K : Metrics}.

(** A hit does nothing but start the log and write the response: no
    validation, no augmentation, no cache write; the status is 200 and the
    body is the cached string as [fmt.Fprintf] renders it, the cached string
    itself when the formatter leaves it as it is. *)
Lemma hit_short_circuits r g value :
  cache.Get (c g) (now g) (CacheKey r) = Some value ->
  calls r g = [CacheGet (CacheKey r);
               Go (LogFromCacheEntry (ENV g) value);
               Fprint (Sprintf value)]
  /\ http.Code (serve r g).1 = Some 200
  /\ http.Body (serve r g).1 = Sprintf value
  /\ c (serve r g).2 = c g
  /\ (Sprintf value = value -> http.Body (serve r g).1 = value).
Proof.
  intros Hget. rewrite calls_spec, serve_spec, Hget. cbn [fst snd].
  repeat split. by intros ->.
Qed.

End Hits.

(** ** The metrics sink *)

Section Logging.
Context `{G : Goiban} {S : GoStd} {K : Metrics}.

(** C8, amended: under the local strategy [logFromCacheEntry] unmarshals
    the cached body, discards the error the unmarshal reports, and
    registers the event built from the result the unmarshal left, a nil
    result included: [Register] is called whether or not the unmarshal
    failed.  It returns nothing, and leaves the cache, the database
    handle, the clock, the pending goroutines and the remote collector as
    they were. *)
Theorem cached_body_logged_locally (env value : string) (g : World) :
  metrics g = None ->
  let g' := logFromCacheEntry env value g in
  inmemMetrics g'
    = Register (ValidationResultToEvent (Unmarshal value).1) (inmemMetrics g)
  /\ handler_view g' = handler_view g
  /\ goroutines g' = goroutines g
  /\ keen g' = keen g
  /\ metrics g' = metrics g.
Proof.
  intros Hm g'. subst g'. unfold logFromCacheEntry. by rewrite Hm.
Qed.

Lemma run_task_view t g : handler_view (run_task t g) = handler_view g.
Proof.
  destruct t; cbn; unfold logFromCacheEntry, logFromIbanResult;
    by destruct (metrics g).
Qed.

Lemma run_goroutine_view i g :
  handler_view (run_goroutine i g) = handler_view g.
Proof.
  unfold run_goroutine. destruct (goroutines g !! i); [|done].
  by rewrite run_task_view.
Qed.
End Logging.

Section Independence.
Context `{G : Goiban} {S : GoStd}.

Lemma serve_view (K1 K2 : Metrics) (r : http.Request)
    (g1 : @World G K1) (g2 : @World G K2) :
  handler_view g1 = handler_view g2 ->
  (serve r g1).1 = (serve r g2).1
  /\ handler_view (serve r g1).2 = handler_view (serve r g2).2.
Proof.
  unfold handler_view. intros Hv.
  assert (Hc : c g1 = c g2) by congruence.
  assert (Hd : db g1 = db g2) by congruence.
  assert (Hn : now g1 = now g2) by congruence.
  rewrite !serve_spec, Hc, Hd, Hn.
  destruct (cache.Get _ _ _); [by cbn; rewrite ?Hc, ?Hd, ?Hn|].
  destruct (decide _); [by cbn; rewrite ?Hc, ?Hd, ?Hn|].
  destruct (Valid _); by cbn; rewrite ?Hc, ?Hd, ?Hn.
Qed.

Lemma step_view (K1 K2 : Metrics) (a : Action)
    (g1 : @World G K1) (g2 : @World G K2) :
  handler_view g1 = handler_view g2 ->
  without_goroutines [a] = [a] ->
  (step a g1).1 = (step a g2).1
  /\ handler_view (step a g1).2 = handler_view (step a g2).2.
Proof.
  intros Hv Ha. destruct a as [r|i|d|]; [| done | |].
  - pose proof (serve_view K1 K2 r g1 g2 Hv) as H. revert H.
    cbn [step].
    destruct (serve r g1) as [resp1 g1'], (serve r g2) as [resp2 g2'].
    cbn [fst snd]. by intros [-> H2].
  - unfold handler_view in *. cbn. split; [done|]. congruence.
  - unfold handler_view in *. cbn. split; [done|]. congruence.
Qed.

Lemma run_cons (K : Metrics) (a : Action) (script : list Action) (g : World) :
  (run (a :: script) g).1 =
    (match (step a g).1 with Some resp => [resp] | None => [] end
     ++ (run script (step a g).2).1)%list.
Proof.
  cbn [run]. destruct (step a g) as [o g']. cbn [fst snd].
  destruct (run script g') as [rs g'']. by destruct o.
Qed.

(** The responses of a script are those of the script without its
    goroutine runs, in any world the handler sees the same way. *)
Lemma run_without_goroutines (K1 K2 : Metrics) (script : list Action) :
  forall (g1 : @World G K1) (g2 : @World G K2),
    handler_view g1 = handler_view g2 ->
    (run script g1).1 = (run (without_goroutines script) g2).1.
Proof.
  induction script as [|a script IH]; intros g1 g2 Hv; [done|].
  destruct a as [r|i|d|].
  - change (without_goroutines (Serve r :: script))
      with (Serve r :: without_goroutines script).
    rewrite !run_cons.
    destruct (step_view K1 K2 (Serve r) g1 g2 Hv eq_refl) as [H1 H2].
    rewrite H1. f_equal. by apply IH.
  - change (without_goroutines (RunGoroutine i :: script))
      with (without_goroutines script).
    rewrite run_cons. cbn [step fst snd app]. apply IH.
    by rewrite run_goroutine_view.
  - change (without_goroutines (Tick d :: script))
      with (Tick d :: without_goroutines script).
    rewrite !run_cons.
    destruct (step_view K1 K2 (Tick d) g1 g2 Hv eq_refl) as [H1 H2].
    rewrite H1. f_equal. by apply IH.
  - change (without_goroutines (Sweep :: script))
      with (Sweep :: without_goroutines script).
    rewrite !run_cons.
    destruct (step_view K1 K2 Sweep g1 g2 Hv eq_refl) as [H1 H2].
    rewrite H1. f_equal. by apply IH.
Qed.

(** C9: the responses of a run (headers, status and body of every request
    served) do not depend on the metrics sink: two runs of the same
    requests, clock ticks and sweeps, started from worlds with the same
    cache, database handle and clock, give the same responses whatever
    the two sinks do (succeed, fail, use the remote or the local
    strategy) and whenever, if ever, the started goroutines run. *)
Theorem response_independent_of_metrics (K1 K2 : Metrics)
    (g1 : @World G K1) (g2 : @World G K2) (script1 script2 : list Action) :
  handler_view g1 = handler_view g2 ->
  without_goroutines script1 = without_goroutines script2 ->
  (run script1 g1).1 = (run script2 g2).1.
Proof.
  intros Hv Hs.
  rewrite (run_without_goroutines K1 K2 script1 g1 g2 Hv).
  rewrite (run_without_goroutines K2 K2 script2 g2 g2 eq_refl).
  by rewrite Hs.
Qed.
End Independence.

(** ** The properties at sample inputs *)

Section Samples.
#[local] Existing Instances Sample.goiban Sample.gostd Sample.metrics_ok.
Import Sample.

(** C1, counterexample: ["DE00"] is answered with status 200 as
    unparseable, and its run starts no goroutine. *)
Lemma unparseable_starts_no_goroutine :
  rawIban (GET "DE00" []) <> ""
  /\ Valid (IsParseable "DE00") = false
  /\ http.Code (serve (GET "DE00" []) world0).1 = Some 200
  /\ started (calls (GET "DE00" []) world0) = []
  /\ length (started (calls (GET "DE00" []) world0)) <> 1%nat
  /\ goroutines (serve (GET "DE00" []) world0).2 = [].
Proof. repeat split; try discriminate; vm_compute; reflexivity. Qed.

(** C2, counterexample: the entry written for ["DE00"] is found at the
    time of the write and is not found five minutes and a nanosecond
    later; the sweep made then deletes it. *)
Lemma unparseable_entry_expires :
  let g1 := (serve (GET "DE00" []) world0).2 in
  let later := tick (Z.to_N (5 * time.Minute + 1)) g1 in
  cache.Get (c g1) (now g1) "DE00falsefalse"
    = Some (unparseable_body "DE00")
  /\ cache.Get (c later) (now later) "DE00falsefalse" = None
  /\ cache.items (c (janitor later)) !! "DE00falsefalse" = None.
Proof. repeat split; vm_compute; reflexivity. Qed.

(** C3, at the failing input: the IBAN [%d] is cached with its verdict,
    and on the hit that follows the body written is not the cached
    string: the verb in it has been expanded by the formatter. *)
Theorem hit_body_expands_format_verbs :
  let g1 := (serve (GET "%d" []) world0).2 in
  let resp2 := (serve (GET "%d" []) g1).1 in
  cache.Get (c g1) (now g1) (CacheKey (GET "%d" []))
    = Some (unparseable_body "%d")
  /\ http.Code resp2 = Some 200
  /\ http.Body resp2 = Sprintf (unparseable_body "%d")
  /\ http.Body resp2 <> unparseable_body "%d".
Proof.
  repeat split; try (vm_compute; reflexivity).
  vm_compute. discriminate.
Qed.

(** C8, counterexample: the empty string does not unmarshal, and logging
    it from the cache under the local strategy registers an event all the
    same. *)
Lemma failed_unmarshal_still_registers :
  metrics world0 = None
  /\ Unmarshal "" = (None, true)
  /\ inmemMetrics world0 = []
  /\ inmemMetrics (logFromCacheEntry "Test" "" world0) = [inl None]
  /\ inmemMetrics (logFromCacheEntry "Test" "" world0) <> inmemMetrics world0.
Proof. repeat split. discriminate. Qed.

Lemma empty_request_rejected_uncached_witness :
  rawIban (GET "" []) = ""
  /\ cache.Get (c world0) (now world0) (CacheKey (GET "" [])) = None
  /\ http.Code (serve (GET "" []) world0).1 = Some 400
  /\ (serve (GET "" []) world0).2 = world0.
Proof.
  assert (H1 : rawIban (GET "" []) = "") by reflexivity.
  assert (H2 : cache.Get (c world0) (now world0) (CacheKey (GET "" [])) = None)
    by reflexivity.
  pose proof (empty_request_rejected_uncached (GET "" []) world0 H1 H2) as H.
  split; [exact H1|]. split; [exact H2|].
  split; [exact (proj1 H) | exact (proj1 (proj2 (proj2 H)))].
Defined.

Lemma unparseable_cached_for_default_expiration_witness :
  cache.Get (c world0) (now world0) (CacheKey (GET "DE00" [])) = None
  /\ rawIban (GET "DE00" []) <> ""
  /\ Valid (IsParseable (rawIban (GET "DE00" []))) = false
  /\ cache.defaultExpiration (c world0) = 5 * time.Minute
  /\ 0 <= now world0
  /\ http.Code (serve (GET "DE00" []) world0).1 = Some 200.
Proof.
  assert (H1 : cache.Get (c world0) (now world0) (CacheKey (GET "DE00" [])) = None)
    by reflexivity.
  assert (H2 : rawIban (GET "DE00" []) <> "") by discriminate.
  assert (H3 : Valid (IsParseable (rawIban (GET "DE00" []))) = false)
    by reflexivity.
  assert (H4 : cache.defaultExpiration (c world0) = 5 * time.Minute)
    by reflexivity.
  assert (H5 : 0 <= now world0) by (vm_compute; discriminate).
  repeat (split; [assumption|]).
  exact (proj1 (unparseable_cached_for_default_expiration
                  (GET "DE00" []) world0 H1 H2 H3 H4 H5)).
Defined.



Lemma cached_body_logged_locally_witness :
  metrics world0 = None
  /\ inmemMetrics (logFromCacheEntry "Test" "{}" world0)
     = Register (ValidationResultToEvent (Unmarshal "{}").1) (inmemMetrics world0).
Proof.
  assert (H1 : metrics world0 = None) by reflexivity.
  split; [exact H1|].
  exact (proj1 (cached_body_logged_locally "Test" "{}" world0 H1)).
Defined.

Lemma response_independent_of_metrics_witness :
  handler_view world0 = handler_view world_remote
  /\ without_goroutines script_prompt = without_goroutines script_late
  /\ (run script_prompt world0).1 = (run script_late world_remote).1.
Proof.
  assert (H1 : handler_view world0 = handler_view world_remote) by reflexivity.
  assert (H2 : without_goroutines script_prompt = without_goroutines script_late)
    by reflexivity.
  split; [exact H1|]. split; [exact H2|].
  exact (response_independent_of_metrics metrics_ok metrics_failing
           world0 world_remote script_prompt script_late H1 H2).
Defined.
End Samples.


(** * Further properties of the service *)

(** ** Reads and writes of the cache *)

Lemma Get_Set_other (c : cache.Cache) (now t : Z) (k k' x : string) (d : Z) :
  k <> k' -> cache.Get (cache.Set_ c now k x d) t k' = cache.Get c t k'.
Proof.
  intros Hne. unfold cache.Get, cache.Set_. cbn [cache.items].
  by rewrite lookup_insert_ne.
Qed.

Lemma Expired_earlier (t t' : Z) (it : cache.Item) :
  t <= t' -> cache.Expired t' it = false -> cache.Expired t it = false.
Proof.
  unfold cache.Expired. intros Ht H.
  destruct (Z.ltb_spec 0 (cache.Expiration it)); [|done]. cbn in *.
  destruct (Z.ltb_spec (cache.Expiration it) t'); [done|].
  destruct (Z.ltb_spec (cache.Expiration it) t); [lia|done].
Qed.

Lemma Get_DeleteExpired_later (c : cache.Cache) (t t' : Z) (k : string) :
  t <= t' -> cache.Get (cache.DeleteExpired c t) t' k = cache.Get c t' k.
Proof.
  intros Ht. unfold cache.Get. rewrite DeleteExpired_lookup.
  destruct (cache.items c !! k) as [it|]; [|done].
  destruct (cache.Expired t it) eqn:Ex; [|done].
  destruct (cache.Expired t' it) eqn:Ex'; [done|].
  by rewrite (Expired_earlier t t' it Ht Ex') in Ex.
Qed.

Section CacheAccess.
Context `{G : Goiban} {S : GoStd} {K : Metrics}.

(** X1: what [c.Set] stores under a key is what [hitCache] returns for
    that key at the same clock reading, found; for any other key [hitCache]
    returns what it returned before the write; and [hitCache] itself
    changes neither the world nor the response. *)
Theorem hitCache_after_Set (k x : string) (d : Z) (s : State) :
  let s' := (c_Set k x d s).2 in
  (hitCache k s').1 = (x, true)
  /\ (forall k' : string, k' <> k -> (hitCache k' s').1 = (hitCache k' s).1)
  /\ (forall k' : string,
        world (hitCache k' s).2 = world s /\ w (hitCache k' s).2 = w s).
Proof.
  intros s'. subst s'.
  unfold hitCache, c_Get, c_Set, bind, call, read, on_world, ret.
  cbn [fst snd world c now with_c].
  split; [by rewrite Get_Set_now|]. split.
  - intros k' Hne. rewrite (Get_Set_other _ _ _ k k') by done.
    by destruct (cache.Get _ _ _).
  - intros k'. by destruct (cache.Get _ _ _).
Qed.

(** The world a run of the handler leaves, field by field. *)
Lemma c_serve r g :
  c (serve r g).2 =
    match cache.Get (c g) (now g) (CacheKey r) with
    | Some _ => c g
    | None =>
        if decide (rawIban r = "") then c g
        else cache.Set_ (c g) (now g) (CacheKey r) (computed_body r (db g)) 0
    end.
Proof.
  rewrite serve_spec. unfold computed_body.
  destruct (cache.Get _ _ _); [done|].
  destruct (decide _); [done|]. by destruct (Valid _).
Qed.

Lemma serve_keeps r g :
  now (serve r g).2 = now g
  /\ db (serve r g).2 = db g
  /\ ENV (serve r g).2 = ENV g
  /\ metrics (serve r g).2 = metrics g
  /\ inmemMetrics (serve r g).2 = inmemMetrics g
  /\ keen (serve r g).2 = keen g.
Proof.
  rewrite serve_spec.
  destruct (cache.Get _ _ _); [done|].
  destruct (decide _); [done|]. by destruct (Valid _).
Qed.

Lemma CacheKey_triple r1 r2 :
  CacheKey r1 = CacheKey r2 <-> request_triple r1 = request_triple r2.
Proof.
  unfold CacheKey, request_triple. split.
  - intros H. apply key_of_inj in H as (-> & -> & ->). done.
  - by intros [= -> -> ->].
Qed.

(** X2: the handler depends on a request only through its IBAN and its two
    flags: two requests that agree on the three are served alike, call for
    call, in any world.  In particular [getBIC=1] and [getBIC=true] are the
    same request, and any other query parameter is ignored. *)
Theorem served_by_triple (r1 r2 : http.Request) (g : World) :
  request_triple r1 = request_triple r2 ->
  serve r1 g = serve r2 g /\ calls r1 g = calls r2 g.
Proof.
  unfold request_triple. intros [= H1 H2 H3].
  rewrite !serve_spec, !calls_spec.
  unfold CacheKey, fresh_body, fresh_error, validation_calls.
  by rewrite H1, H2, H3.
Qed.

(** X3: serving a request leaves the cache as it was for every request
    that differs in its IBAN or in one of its flags: what the cache holds
    under the other request's key, and what a read of it finds at any time,
    are unchanged. *)
Theorem other_entries_untouched (r1 r2 : http.Request) (g : World) :
  request_triple r1 <> request_triple r2 ->
  cache.items (c (serve r1 g).2) !! CacheKey r2 = cache.items (c g) !! CacheKey r2
  /\ forall t : Z,
       cache.Get (c (serve r1 g).2) t (CacheKey r2)
       = cache.Get (c g) t (CacheKey r2).
Proof.
  intros Hne.
  assert (Hk : CacheKey r1 <> CacheKey r2).
  { intros H. by apply Hne, CacheKey_triple. }
  rewrite c_serve.
  destruct (cache.Get _ _ _); [done|].
  destruct (decide _); [done|]. split.
  - unfold cache.Set_. cbn [cache.items]. by rewrite lookup_insert_ne.
  - intros t. by rewrite Get_Set_other.
Qed.

(** X4: the handler always sets a status, 200 or 400, and it is 400
    exactly when the IBAN is empty and the request's key is not cached. *)
Theorem status_is_200_or_400 (r : http.Request) (g : World) :
  http.Code (serve r g).1 =
    if decide (cache.Get (c g) (now g) (CacheKey r) = None /\ rawIban r = "")
    then Some 400 else Some 200.
Proof.
  rewrite serve_spec.
  destruct (cache.Get _ _ _) as [v|].
  - rewrite decide_False by (by intros [? _]). done.
  - destruct (decide (rawIban r = "")) as [He|Hne].
    + by rewrite decide_True.
    + rewrite decide_False by (by intros [_ ?]). by destruct (Valid _).
Qed.

Lemma json_headers_lookup :
  http.Header (json_headers http.NewRecorder) !! "Content-Type"
    = Some ["application/json; charset=utf-8"]
  /\ http.Header (json_headers http.NewRecorder) !! "Access-Control-Allow-Origin"
     = Some ["*"]
  /\ http.Header (json_headers http.NewRecorder) !! "Content-Length" = None.
Proof.
  unfold json_headers, http.Header_Set, http.Header_Add, http.NewRecorder.
  cbn [http.Header].
  split; [|split].
  - rewrite lookup_insert_ne by done. by rewrite lookup_insert_eq, lookup_empty.
  - by rewrite lookup_insert_eq.
  - rewrite !lookup_insert_ne by done. apply lookup_empty.
Qed.

(** X5: every response with status 200 carries the JSON content type and
    the wildcard CORS header; it carries a [Content-Length], the decimal
    length of the serialized string, when the body was computed, and none
    set by the handler when the body comes from the cache. *)
Theorem headers_of_200 (r : http.Request) (g : World) :
  http.Code (serve r g).1 = Some 200 ->
  let h := http.Header (serve r g).1 in
  h !! "Content-Type" = Some ["application/json; charset=utf-8"]
  /\ h !! "Access-Control-Allow-Origin" = Some ["*"]
  /\ h !! "Content-Length" =
       match cache.Get (c g) (now g) (CacheKey r) with
       | Some _ => None
       | None =>
           Some [strconv.Itoa (String.length (computed_body r (db g)))]
       end.
Proof.
  destruct json_headers_lookup as (Hct & Hcors & Hcl).
  rewrite serve_spec. unfold computed_body.
  destruct (cache.Get _ _ _) as [v|].
  - intros _. cbn. done.
  - destruct (decide _); [discriminate|].
    destruct (Valid _); intros _; cbn -[json_headers];
      unfold with_length, http.Header_Add; cbn [http.Header];
      (split; [|split]);
      [ by rewrite lookup_insert_ne by done
      | by rewrite lookup_insert_ne by done
      | by rewrite lookup_insert_eq, Hcl
      | by rewrite lookup_insert_ne by done
      | by rewrite lookup_insert_ne by done
      | by rewrite lookup_insert_eq, Hcl ].
Qed.

(** X6: the 400 answer to an empty IBAN is labelled as plain text, with
    sniffing disabled, although its body is the serialized JSON result; it
    keeps the wildcard CORS header. *)
Theorem headers_of_400 (r : http.Request) (g : World) :
  http.Code (serve r g).1 = Some 400 ->
  let h := http.Header (serve r g).1 in
  h !! "Content-Type" = Some ["text/plain; charset=utf-8"]
  /\ h !! "X-Content-Type-Options" = Some ["nosniff"]
  /\ h !! "Access-Control-Allow-Origin" = Some ["*"]
  /\ http.Body (serve r g).1 = empty_body "" +:+ String "010" "".
Proof.
  destruct json_headers_lookup as (Hct & Hcors & Hcl).
  rewrite serve_spec.
  destruct (cache.Get _ _ _) as [v|]; [discriminate|].
  destruct (decide _); [|by destruct (Valid _)].
  intros _. cbn -[json_headers empty_body].
  unfold with_length, http.Header_Add; cbn [http.Header].
  split; [|split; [|split]].
  - rewrite lookup_insert_ne by done. by rewrite lookup_insert_eq.
  - by rewrite lookup_insert_eq.
  - by rewrite !lookup_insert_ne by done.
  - done.
Qed.
End CacheAccess.

(** ** Runs of the process *)

Section ProcessRuns.
Context `{G : Goiban} {S : GoStd} {K : Metrics}.

Lemma step_Serve r g :
  step (Serve r) g = (Some (serve r g).1, (serve r g).2).
Proof. cbn [step]. by destruct (serve r g). Qed.

Lemma run_snd (a : Action) (script : list Action) (g : World) :
  (run (a :: script) g).2 = (run script (step a g).2).2.
Proof.
  cbn [run]. destruct (step a g) as [o g']. cbn [snd].
  by destruct (run script g').
Qed.

Lemma step_now (a : Action) (g : World) :
  now (step a g).2 =
    match a with Tick d => now g + Z.of_N d | _ => now g end.
Proof.
  destruct a as [r|i|d|]; [| |done|done].
  - rewrite step_Serve. cbn [snd]. apply serve_keeps.
  - cbn [step snd]. pose proof (run_goroutine_view i g) as H.
    unfold handler_view in H. congruence.
Qed.

Lemma step_now_le (a : Action) (g : World) : now g <= now (step a g).2.
Proof. rewrite step_now. destruct a; lia. Qed.

Lemma run_now (script : list Action) (g : World) :
  now (run script g).2 = now g + elapsed script.
Proof.
  revert g. induction script as [|a script IH]; intros g.
  - cbn. lia.
  - rewrite run_snd, IH, step_now. destruct a; cbn [elapsed]; lia.
Qed.

Lemma elapsed_nonneg (script : list Action) : 0 <= elapsed script.
Proof. induction script as [|[]]; cbn [elapsed]; lia. Qed.

Lemma c_run_goroutine i g : c (run_goroutine i g) = c g.
Proof.
  pose proof (run_goroutine_view i g) as H. unfold handler_view in H.
  congruence.
Qed.

(** One step leaves an entry alone when the entry has not expired by the
    end of the step. *)
Lemma step_keeps_entry (a : Action) (g : World) (k : string) (it : cache.Item) :
  cache.items (c g) !! k = Some it ->
  cache.Expired (now (step a g).2) it = false ->
  cache.items (c (step a g).2) !! k = Some it.
Proof.
  intros Hit Hex.
  assert (Hex0 : cache.Expired (now g) it = false).
  { eapply Expired_earlier; [apply (step_now_le a g)|done]. }
  destruct a as [r|i|d|].
  - rewrite step_Serve. cbn [snd]. rewrite c_serve.
    destruct (decide (CacheKey r = k)) as [->|Hne].
    + unfold cache.Get. by rewrite Hit, Hex0.
    + destruct (cache.Get _ _ _); [done|].
      destruct (decide _); [done|].
      unfold cache.Set_. cbn [cache.items]. by rewrite lookup_insert_ne.
  - cbn [step snd]. by rewrite c_run_goroutine.
  - done.
  - cbn [step snd janitor c with_c]. by rewrite DeleteExpired_lookup, Hit, Hex0.
Qed.

(** X7: an entry that has not expired by the end of a run is in the cache,
    unchanged, at the end of the run, and a read finds it: the requests
    that hit it neither rewrite it nor prolong it, the other requests, the
    goroutines and the sweeps do not touch it. *)
Theorem entry_kept_until_expiry (script : list Action) (g : World)
    (k : string) (it : cache.Item) :
  cache.items (c g) !! k = Some it ->
  cache.Expired (now (run script g).2) it = false ->
  cache.items (c (run script g).2) !! k = Some it
  /\ cache.Get (c (run script g).2) (now (run script g).2) k
     = Some (cache.Object it).
Proof.
  revert g. induction script as [|a script IH]; intros g Hit Hex.
  - cbn in *. unfold cache.Get. by rewrite Hit, Hex.
  - rewrite run_snd in *. apply IH; [|done].
    apply step_keeps_entry; [done|].
    eapply Expired_earlier; [|exact Hex].
    rewrite run_now. pose proof (elapsed_nonneg script). lia.
Qed.


Lemma step_short_lived (a : Action) (g : World) :
  short_lived g -> short_lived (step a g).2.
Proof.
  intros (Hd & Hnow & Hall). destruct a as [r|i|d|].
  - rewrite step_Serve. cbn [snd]. unfold short_lived.
    destruct (serve_keeps r g) as (-> & _). rewrite c_serve.
    destruct (cache.Get _ _ _); [done|].
    destruct (decide _); [done|].
    split; [done|]. split; [done|]. intros k it.
    unfold cache.Set_. cbn [cache.items]. rewrite lookup_insert.
    case_decide; [|by apply Hall].
    intros [= <-]. cbn [cache.Expiration]. rewrite Hd.
    change (0 =? cache.DefaultExpiration) with true. cbv iota.
    change (5 * time.Minute) with 300000000000. cbn. lia.
  - cbn [step snd]. unfold short_lived.
    pose proof (run_goroutine_view i g) as H. unfold handler_view in H.
    injection H as -> _ ->. done.
  - cbn [step snd]. unfold short_lived, tick. cbn [c now with_now].
    split; [done|]. split; [lia|]. intros k it Hit.
    specialize (Hall k it Hit). lia.
  - cbn [step snd]. unfold short_lived, janitor. cbn [c now with_c].
    split; [done|]. split; [done|]. intros k it.
    rewrite DeleteExpired_lookup.
    destruct (cache.items (c g) !! k) as [it'|] eqn:E; [|done].
    destruct (cache.Expired _ _); [done|]. intros [= <-]. exact (Hall _ _ E).
Qed.

Lemma run_short_lived (script : list Action) (g : World) :
  short_lived g -> short_lived (run script g).2.
Proof.
  revert g. induction script as [|a script IH]; intros g H; [done|].
  rewrite run_snd. by apply IH, step_short_lived.
Qed.

(** X9: in a process that starts with an empty cache whose default
    expiration is five minutes, no entry is ever permanent: at every point
    of every run each entry expires, within five minutes of that point; so
    after more than five idle minutes every request misses the cache. *)
Theorem nothing_cached_beyond_five_minutes (script : list Action) (g : World) :
  cache.items (c g) = ∅ ->
  cache.defaultExpiration (c g) = 5 * time.Minute ->
  0 <= now g ->
  let g' := (run script g).2 in
  (forall (k : string) (it : cache.Item),
     cache.items (c g') !! k = Some it ->
     0 < cache.Expiration it <= now g' + 5 * time.Minute)
  /\ (forall (d : N) (r : http.Request),
        5 * time.Minute < Z.of_N d ->
        cache.Get (c (tick d g')) (now (tick d g')) (CacheKey r) = None).
Proof.
  intros Hempty Hd Hnow g'.
  assert (Hs : short_lived g').
  { apply run_short_lived. split; [done|]. split; [done|].
    intros k it. by rewrite Hempty, lookup_empty. }
  destruct Hs as (_ & _ & Hall). split; [exact Hall|].
  intros d r Hlate. cbn [tick c now with_now]. unfold cache.Get.
  destruct (cache.items (c g') !! CacheKey r) as [it|] eqn:E; [|done].
  specialize (Hall _ _ E). unfold cache.Expired.
  destruct (Z.ltb_spec 0 (cache.Expiration it)); [|lia].
  destruct (Z.ltb_spec (cache.Expiration it) (now g' + Z.of_N d)); [done|lia].
Qed.

Lemma step_keys_nonempty (a : Action) (g : World) :
  keys_nonempty g -> keys_nonempty (step a g).2.
Proof.
  intros Hall. destruct a as [r|i|d|].
  - rewrite step_Serve. cbn [snd]. unfold keys_nonempty. rewrite c_serve.
    destruct (cache.Get _ _ _); [done|].
    destruct (decide _) as [|Hne]; [done|].
    intros k. unfold cache.Set_. cbn [cache.items]. rewrite lookup_insert.
    case_decide as Hk; [|by apply Hall].
    intros _. exists (rawIban r), (wantBic r), (wantBankCodeCheck r).
    by rewrite <- Hk.
  - cbn [step snd]. unfold keys_nonempty. by rewrite c_run_goroutine.
  - done.
  - cbn [step snd]. unfold keys_nonempty, janitor. cbn [c with_c].
    intros k. rewrite DeleteExpired_lookup.
    destruct (cache.items (c g) !! k) as [it|] eqn:E; [|by intros [? ?]].
    intros _. apply Hall. by rewrite E.
Qed.

Lemma run_keys_nonempty (script : list Action) (g : World) :
  keys_nonempty g -> keys_nonempty (run script g).2.
Proof.
  revert g. induction script as [|a script IH]; intros g H; [done|].
  rewrite run_snd. by apply IH, step_keys_nonempty.
Qed.

(** X10: in a process that starts with an empty cache, the key of a
    request with an empty IBAN is never in the cache, whatever was served
    before: such a request is answered with status 400 at every point of
    every run, and leaves the cache as it found it. *)
Theorem empty_request_always_400 (script : list Action) (g : World)
    (r : http.Request) :
  cache.items (c g) = ∅ ->
  rawIban r = "" ->
  let g' := (run script g).2 in
  cache.items (c g') !! CacheKey r = None
  /\ http.Code (serve r g').1 = Some 400
  /\ c (serve r g').2 = c g'.
Proof.
  intros Hempty Hr g'.
  assert (Hk : keys_nonempty g').
  { apply run_keys_nonempty. intros k. rewrite Hempty, lookup_empty.
    by intros [? ?]. }
  assert (Hnone : cache.items (c g') !! CacheKey r = None).
  { destruct (cache.items (c g') !! CacheKey r) as [it|] eqn:E; [|done].
    destruct (Hk (CacheKey r)) as (iban & b & v & Hne & Heq); [by rewrite E|].
    unfold CacheKey in Heq. apply key_of_inj in Heq as (Hi & _).
    rewrite Hr in Hi. by subst iban. }
  assert (Hget : cache.Get (c g') (now g') (CacheKey r) = None).
  { unfold cache.Get. by rewrite Hnone. }
  split; [exact Hnone|]. rewrite c_serve, serve_spec, Hget.
  by rewrite !decide_True by done.
Qed.
End ProcessRuns.

(** ** The settings and the two logging strategies *)

Section Strategies.
Context `{G : Goiban} {S : GoStd} {K : Metrics}.

Lemma run_task_frame (t : Task) (g : World) :
  settings (run_task t g) = settings g
  /\ goroutines (run_task t g) = goroutines g
  /\ (metrics g <> None -> inmemMetrics (run_task t g) = inmemMetrics g)
  /\ (metrics g = None -> keen (run_task t g) = keen g).
Proof.
  destruct t; cbn [run_task]; unfold logFromCacheEntry, logFromIbanResult;
    by destruct (metrics g) eqn:E.
Qed.

Lemma step_frame (a : Action) (g : World) :
  settings (step a g).2 = settings g
  /\ (metrics g <> None -> inmemMetrics (step a g).2 = inmemMetrics g)
  /\ (metrics g = None -> keen (step a g).2 = keen g).
Proof.
  destruct a as [r|i|d|]; [| |done|done].
  - rewrite step_Serve. cbn [snd]. unfold settings.
    destruct (serve_keeps r g) as (_ & -> & -> & -> & -> & ->).
    rewrite c_serve.
    destruct (cache.Get _ _ _); [done|]. by destruct (decide _).
  - cbn [step snd]. unfold run_goroutine.
    destruct (goroutines g !! i) as [t|]; [|done].
    destruct (run_task_frame t (with_goroutines (delete i (goroutines g)) g))
      as (H1 & _ & H3 & H4).
    split; [exact H1|]. split; [exact H3 | exact H4].
Qed.

Lemma run_frame (script : list Action) (g : World) :
  settings (run script g).2 = settings g
  /\ (metrics g <> None -> inmemMetrics (run script g).2 = inmemMetrics g)
  /\ (metrics g = None -> keen (run script g).2 = keen g).
Proof.
  revert g. induction script as [|a script IH]; intros g; [done|].
  rewrite run_snd.
  destruct (step_frame a g) as (Hs & Hr & Hk).
  destruct (IH (step a g).2) as (Hs' & Hr' & Hk').
  assert (Hm : metrics (step a g).2 = metrics g).
  { unfold settings in Hs. congruence. }
  rewrite Hm in Hr', Hk'.
  split; [congruence|]. split.
  - intros H. rewrite Hr' by done. by apply Hr.
  - intros H. rewrite Hk' by done. by apply Hk.
Qed.

(** X11: nothing a run does changes the settings made at startup: the
    environment label, the remote credentials, the database handle and the
    cache's default expiration and cleanup interval stay as they were.  So
    the logging strategy is fixed for the run: with remote credentials the
    in-process register is never written, without them the remote
    collector is never called. *)
Theorem settings_fixed (script : list Action) (g : World) :
  settings (run script g).2 = settings g
  /\ (metrics g <> None -> inmemMetrics (run script g).2 = inmemMetrics g)
  /\ (metrics g = None -> keen (run script g).2 = keen g).
Proof.
  destruct (run_frame script g) as (Hs & Hr & Hk).
  split; [exact Hs|]. split; [exact Hr | exact Hk].
Qed.

Lemma reads_alike_later (t t' : Z) (c1 c2 : cache.Cache) :
  t <= t' -> reads_alike t c1 c2 -> reads_alike t' c1 c2.
Proof.
  intros Ht [Hd H]. split; [done|]. intros t'' k Ht'. apply H. lia.
Qed.

Lemma reads_alike_Set_ (t : Z) (c1 c2 : cache.Cache) (k x : string) (d : Z) :
  reads_alike t c1 c2 ->
  reads_alike t (cache.Set_ c1 t k x d) (cache.Set_ c2 t k x d).
Proof.
  intros [Hd H]. split; [done|]. intros t' k' Ht'.
  destruct (decide (k = k')) as [<-|Hne].
  - by rewrite !Get_Set_, Hd.
  - rewrite !Get_Set_other by done. by apply H.
Qed.

Lemma serve_same_reads r g1 g2 :
  same_reads g1 g2 ->
  (serve r g1).1 = (serve r g2).1
  /\ same_reads (serve r g1).2 (serve r g2).2.
Proof.
  intros (Hdb & Hn & Hc).
  assert (Hget : cache.Get (c g1) (now g1) (CacheKey r)
                 = cache.Get (c g2) (now g2) (CacheKey r)).
  { rewrite <- Hn. apply Hc. lia. }
  unfold same_reads.
  destruct (serve_keeps r g1) as (-> & -> & _).
  destruct (serve_keeps r g2) as (-> & -> & _).
  rewrite !c_serve, !serve_spec, <- Hget, <- Hdb.
  destruct (cache.Get (c g1) (now g1) (CacheKey r)); [done|].
  destruct (decide _); [done|].
  split; [by destruct (Valid _)|].
  split; [done|]. split; [done|].
  rewrite <- Hn. by apply reads_alike_Set_.
Qed.

Lemma janitor_same_reads g1 g2 :
  same_reads g1 g2 -> same_reads (janitor g1) g2.
Proof.
  intros (Hdb & Hn & Hd & Hc). unfold same_reads, janitor.
  cbn [c db now with_c].
  split; [done|]. split; [done|]. split; [done|].
  intros t' k Ht'. rewrite Get_DeleteExpired_later by done. by apply Hc.
Qed.

Lemma run_goroutine_same_reads i g1 g2 :
  same_reads g1 g2 -> same_reads (run_goroutine i g1) (run_goroutine i g2).
Proof.
  unfold same_reads.
  pose proof (run_goroutine_view i g1) as H1.
  pose proof (run_goroutine_view i g2) as H2.
  unfold handler_view in *.
  injection H1 as -> -> ->. injection H2 as -> -> ->. done.
Qed.

Lemma tick_same_reads d g1 g2 :
  same_reads g1 g2 -> same_reads (tick d g1) (tick d g2).
Proof.
  intros (Hdb & Hn & Hc). unfold same_reads, tick. cbn [c db now with_now].
  split; [done|]. split; [lia|].
  eapply reads_alike_later; [|exact Hc]. lia.
Qed.

Lemma run_without_sweeps (script : list Action) :
  forall g1 g2 : World,
    same_reads g1 g2 ->
    (run script g1).1 = (run (without_sweeps script) g2).1.
Proof.
  induction script as [|a script IH]; intros g1 g2 H; [done|].
  destruct a as [r|i|d|].
  - change (without_sweeps (Serve r :: script))
      with (Serve r :: without_sweeps script).
    rewrite !run_cons, !step_Serve. cbn [fst snd].
    destruct (serve_same_reads r g1 g2 H) as [-> H'].
    f_equal. by apply IH.
  - change (without_sweeps (RunGoroutine i :: script))
      with (RunGoroutine i :: without_sweeps script).
    rewrite !run_cons. cbn [step fst snd app].
    by apply IH, run_goroutine_same_reads.
  - change (without_sweeps (Tick d :: script))
      with (Tick d :: without_sweeps script).
    rewrite !run_cons. cbn [step fst snd app].
    by apply IH, tick_same_reads.
  - change (without_sweeps (Sweep :: script)) with (without_sweeps script).
    rewrite run_cons. cbn [step fst snd app].
    by apply IH, janitor_same_reads.
Qed.

(** X12: the janitor cannot be observed through the responses: a run and
    the same run without its sweeps, or with its sweeps at other points,
    answer every request alike, since a sweep removes only what reads
    already pass over. *)
Theorem sweeps_unobservable (script1 script2 : list Action) (g : World) :
  without_sweeps script1 = without_sweeps script2 ->
  (run script1 g).1 = (run script2 g).1.
Proof.
  intros Hs.
  assert (H : same_reads g g) by (by split; [|split; [|split]]).
  rewrite (run_without_sweeps script1 g g H).
  rewrite (run_without_sweeps script2 g g H).
  by rewrite Hs.
Qed.
End Strategies.

(** ** Startup *)

Section StartupProperties.
Context `{G : Goiban} {S : GoStd} {K : Metrics} {Q : Sql}.

Lemma listen_exit port environment dbUrl g :
  (listen port environment dbUrl g).1.2 =
    match (Open "mysql" dbUrl).2 with
    | Some e => Fatal ("Error opening DB connection: " +:+ e)
    | None =>
        ListenAndServe (":" +:+ port)
          {| router :=
               {| routes :=
                    [("GET", "/validate/:iban", h_validationHandler);
                     ("GET", "/countries", h_countryCodeHandler);
                     ("GET", "/calculate/:countryCode/:bankCode/:accountNumber",
                      h_calculateIBAN);
                     ("GET",
                      "/v2/calculate/:countryCode/:bankCode/:accountNumber",
                      h_calculateAndValidateIBAN);
                     ("GET", "/metrics", h_inmemMetrics)];
                  NotFound :=
                    if decide (environment = "Live" \/ environment = "Test")
                    then Some "static" else None |};
             AllowedOrigins := ["*"];
             AllowedMethods := ["GET"] |}
    end
  /\ (listen port environment dbUrl g).2
     = with_db (Open "mysql" dbUrl).1 g.
Proof.
  unfold listen. destruct (Open "mysql" dbUrl) as [d [e|]]; done.
Qed.

(** X13: [main] reaches [http.ListenAndServe] exactly when it is given at
    least two arguments after the program name and [sql.Open] reports no
    error for the second; it then listens on [":" ++ port].  With fewer
    arguments it prints the usage line, touches nothing and returns; on an
    error of [sql.Open] it stops in [log.Fatalf] with the error in the
    message. *)
Theorem main_reaches_server (Args : list string) (g : World) :
  let exit := (main Args g).1.2 in
  ((exists addr handler, exit = ListenAndServe addr handler)
   <-> (3 <= length Args)%nat /\ (Open "mysql" (arg Args 2)).2 = None)
  /\ (forall addr handler, exit = ListenAndServe addr handler ->
        addr = ":" +:+ arg Args 1)
  /\ ((length Args < 3)%nat -> main Args g = ([usage], Returned, g))
  /\ (forall e, (3 <= length Args)%nat ->
        (Open "mysql" (arg Args 2)).2 = Some e ->
        exit = Fatal ("Error opening DB connection: " +:+ e)).
Proof.
  intros exit. subst exit. unfold main.
  destruct (Nat.ltb_spec (length Args) 3) as [Hlt|Hge].
  - cbn [fst snd]. split; [|split; [|split]].
    + split; [by intros (? & ? & ?)|]. intros [? _]. lia.
    + by intros ? ? ?.
    + done.
    + intros e ?. lia.
  - match goal with
    | |- context [listen ?p ?e ?u ?w] =>
        destruct (listen_exit p e u w) as [-> _]
    end.
    destruct ((Open "mysql" (arg Args 2)).2) as [e|].
    + split; [|split; [|split]].
      * split; [by intros (? & ? & ?)|]. by intros [_ ?].
      * by intros ? ? ?.
      * intros ?. lia.
      * by intros e' _ [= ->].
    + split; [|split; [|split]].
      * split; [done|]. intros _. eauto.
      * by intros ? ? [= <- _].
      * intros ?. lia.
      * by intros e' _ ?.
Qed.

Lemma serving_world (Args : list string) (k : Keen) (t : Z) (g : World) :
  serving Args k t = Some g ->
  (3 <= length Args)%nat
  /\ g = with_db (Open "mysql" (arg Args 2)).1
           (if (length Args <? 6)%nat
            then with_ENV "Test" (package_vars k t)
            else
              with_metrics
                (Some {| ProjectID := arg Args 4; WriteAPIKey := arg Args 5 |})
                (with_ENV (arg Args 3) (package_vars k t))).
Proof.
  unfold serving, main.
  destruct (Nat.ltb_spec (length Args) 3) as [Hlt|Hge]; [done|].
  match goal with
  | |- context [listen ?p ?e ?u ?w] =>
      pose proof (listen_exit p e u w) as [He Hw];
      destruct (listen p e u w) as [[out ex] g']
  end.
  cbn [fst snd] in He, Hw. subst g'.
  destruct ex; try done. by intros [= <-].
Qed.

(** X14: the strategy is chosen by the number of arguments alone.  Started
    with fewer than five arguments after the program name, the service
    runs as ["Test"] with no remote credentials, whatever environment label
    it was given, and no run ever calls the remote collector; started with
    five or more, it runs under the given label with the given credentials
    and no run ever writes the in-process register.  Either way it starts
    with an empty cache of five minutes' default expiration and no
    goroutine pending. *)
Theorem strategy_by_argument_count (Args : list string) (k : Keen) (t : Z)
    (g : World) (script : list Action) :
  serving Args k t = Some g ->
  cache.items (c g) = ∅
  /\ cache.defaultExpiration (c g) = 5 * time.Minute
  /\ goroutines g = []
  /\ now g = t
  /\ ((length Args < 6)%nat ->
        ENV g = "Test" /\ metrics g = None
        /\ keen (run script g).2 = k)
  /\ ((6 <= length Args)%nat ->
        ENV g = arg Args 3
        /\ metrics g
           = Some {| ProjectID := arg Args 4; WriteAPIKey := arg Args 5 |}
        /\ inmemMetrics (run script g).2 = NewInmemMetricsRegister).
Proof.
  intros Hs. apply serving_world in Hs as [Hlen ->].
  match goal with
  | |- context [run script ?g0] =>
      destruct (run_frame script g0) as (_ & Hr & Hk)
  end.
  destruct (Nat.ltb_spec (length Args) 6) as [Hlt|Hge];
    (split; [done|]); (split; [done|]); (split; [done|]); (split; [done|]).
  - split; [|intros; lia]. intros _. split; [done|]. split; [done|].
    by rewrite Hk.
  - split; [intros; lia|]. intros _. split; [done|]. split; [done|].
    by rewrite Hr.
Qed.
End StartupProperties.

Section StaticPages.
Context `{G : Goiban} {S : GoStd} {K : Metrics} {Q : Sql}.

(** X15: when [main] reaches the server, the static pages are hosted for
    unmatched paths exactly when fewer than five arguments follow the
    program name or the environment label given is ["Live"] or ["Test"];
    the validation handler is registered for [GET /validate/:iban] and the
    CORS layer admits every origin and the method [GET] only. *)
Theorem static_pages_hosted (Args : list string) (g : World)
    (addr : string) (handler : Server) :
  (main Args g).1.2 = ListenAndServe addr handler ->
  (NotFound (router handler) = Some "static"
   <-> (length Args < 6)%nat \/ arg Args 3 = "Live" \/ arg Args 3 = "Test")
  /\ (NotFound (router handler) = None
      <-> (6 <= length Args)%nat /\ arg Args 3 <> "Live" /\ arg Args 3 <> "Test")
  /\ In ("GET", "/validate/:iban", h_validationHandler) (routes (router handler))
  /\ AllowedOrigins handler = ["*"]
  /\ AllowedMethods handler = ["GET"].
Proof.
  unfold main.
  destruct (Nat.ltb_spec (length Args) 3) as [Hlt|Hge]; [done|].
  match goal with
  | |- context [listen ?p ?e ?u ?w] =>
      destruct (listen_exit p e u w) as [-> _]
  end.
  destruct ((Open "mysql" (arg Args 2)).2) as [e|]; [done|].
  intros [= _ <-]. cbn [router NotFound routes AllowedOrigins AllowedMethods].
  destruct (Nat.ltb_spec (length Args) 6) as [Hlt|Hge6]; cbn [ENV with_ENV with_metrics].
  - rewrite decide_True by (by right).
    split; [split; [by left|done]|]. split; [split; [done|lia]|].
    split; [by left|done].
  - case_decide as Hd.
    + split; [split; [by right|done]|]. split; [|split; [by left|done]].
      split; [done|]. intros (_ & H1 & H2). by destruct Hd.
    + split; [|split; [|split; [by left|done]]].
      * split; [done|]. intros [?|H]; [lia|]. by destruct Hd.
      * split; [|done]. intros _. split; [done|].
        split; intros ?; apply Hd; [by left | by right].
Qed.
End StaticPages.

(** ** The further properties at sample inputs *)

Section MoreSamples.
#[local] Existing Instances Sample.goiban Sample.gostd Sample.metrics_ok
  SampleStartup.sql.
Import Sample SampleStartup.

Lemma served_by_triple_witness :
  request_triple (GET DE89 [("getBIC", ["1"])])
    = request_triple (GET DE89 [("getBIC", ["true"]); ("pretty", ["yes"])])
  /\ serve (GET DE89 [("getBIC", ["1"])]) world0
     = serve (GET DE89 [("getBIC", ["true"]); ("pretty", ["yes"])]) world0.
Proof.
  assert (H : request_triple (GET DE89 [("getBIC", ["1"])])
              = request_triple
                  (GET DE89 [("getBIC", ["true"]); ("pretty", ["yes"])]))
    by (vm_compute; reflexivity).
  split; [exact H|]. exact (proj1 (served_by_triple _ _ world0 H)).
Defined.

Lemma other_entries_untouched_witness :
  request_triple (GET DE89 [("getBIC", ["1"])]) <> request_triple (GET DE89 [])
  /\ cache.items (c (serve (GET DE89 [("getBIC", ["1"])])
                       (serve (GET DE89 []) world0).2).2)
       !! CacheKey (GET DE89 [])
     = cache.items (c (serve (GET DE89 []) world0).2) !! CacheKey (GET DE89 []).
Proof.
  assert (H : request_triple (GET DE89 [("getBIC", ["1"])])
              <> request_triple (GET DE89 []))
    by (vm_compute; discriminate).
  split; [exact H|].
  exact (proj1 (other_entries_untouched _ _ (serve (GET DE89 []) world0).2 H)).
Defined.

Lemma headers_of_200_witness :
  http.Code (serve (GET DE89 []) world0).1 = Some 200
  /\ http.Header (serve (GET DE89 []) world0).1 !! "Content-Type"
     = Some ["application/json; charset=utf-8"].
Proof.
  assert (H : http.Code (serve (GET DE89 []) world0).1 = Some 200)
    by (vm_compute; reflexivity).
  split; [exact H|]. exact (proj1 (headers_of_200 _ world0 H)).
Defined.

Lemma headers_of_400_witness :
  http.Code (serve (GET "" []) world0).1 = Some 400
  /\ http.Header (serve (GET "" []) world0).1 !! "Content-Type"
     = Some ["text/plain; charset=utf-8"].
Proof.
  assert (H : http.Code (serve (GET "" []) world0).1 = Some 400)
    by (vm_compute; reflexivity).
  split; [exact H|]. exact (proj1 (headers_of_400 _ world0 H)).
Defined.

Lemma entry_kept_until_expiry_witness :
  let g1 := (serve (GET DE89 []) world0).2 in
  let it := {| cache.Object := fresh_body (GET DE89 []) (db world0);
               cache.Expiration := 5 * time.Minute |} in
  cache.items (c g1) !! CacheKey (GET DE89 []) = Some it
  /\ cache.Expired (now (run two_requests g1).2) it = false
  /\ cache.items (c (run two_requests g1).2) !! CacheKey (GET DE89 []) = Some it.
Proof.
  intros g1 it.
  assert (H1 : cache.items (c g1) !! CacheKey (GET DE89 []) = Some it)
    by (vm_compute; reflexivity).
  assert (H2 : cache.Expired (now (run two_requests g1).2) it = false)
    by (vm_compute; reflexivity).
  split; [exact H1|]. split; [exact H2|].
  exact (proj1 (entry_kept_until_expiry two_requests g1 _ it H1 H2)).
Defined.


Lemma nothing_cached_beyond_five_minutes_witness :
  cache.items (c world0) = ∅
  /\ cache.defaultExpiration (c world0) = 5 * time.Minute
  /\ 0 <= now world0
  /\ cache.Get (c (tick 300000000001 (run two_requests world0).2))
       (now (tick 300000000001 (run two_requests world0).2))
       (CacheKey (GET DE89 [])) = None.
Proof.
  assert (H1 : cache.items (c world0) = ∅) by reflexivity.
  assert (H2 : cache.defaultExpiration (c world0) = 5 * time.Minute)
    by reflexivity.
  assert (H3 : 0 <= now world0) by (vm_compute; discriminate).
  repeat (split; [assumption|]).
  apply (proj2 (nothing_cached_beyond_five_minutes two_requests world0 H1 H2 H3)).
  vm_compute. reflexivity.
Defined.

Lemma empty_request_always_400_witness :
  cache.items (c world0) = ∅
  /\ rawIban (GET "" [("getBIC", ["1"])]) = ""
  /\ http.Code (serve (GET "" [("getBIC", ["1"])])
                  (run two_requests world0).2).1 = Some 400.
Proof.
  assert (H1 : cache.items (c world0) = ∅) by reflexivity.
  assert (H2 : rawIban (GET "" [("getBIC", ["1"])]) = "") by reflexivity.
  split; [exact H1|]. split; [exact H2|].
  exact (proj1 (proj2 (empty_request_always_400 two_requests world0 _ H1 H2))).
Defined.

Lemma sweeps_unobservable_witness :
  without_sweeps two_requests
    = without_sweeps (Sweep :: two_requests ++ [Sweep])%list
  /\ (run two_requests world0).1
     = (run (Sweep :: two_requests ++ [Sweep])%list world0).1.
Proof.
  assert (H : without_sweeps two_requests
              = without_sweeps (Sweep :: two_requests ++ [Sweep])%list)
    by reflexivity.
  split; [exact H|]. exact (sweeps_unobservable _ _ world0 H).
Defined.

Lemma strategy_by_argument_count_witness :
  serving args_local (keen world0) 0
    = Some (with_db {[ "37040044" := "COBADEFFXXX" ]}
              (with_ENV "Test" (package_vars (keen world0) 0)))
  /\ ENV (with_db {[ "37040044" := "COBADEFFXXX" ]}
            (with_ENV "Test" (package_vars (keen world0) 0))) = "Test".
Proof.
  assert (H : serving args_local (keen world0) 0
              = Some (with_db {[ "37040044" := "COBADEFFXXX" ]}
                        (with_ENV "Test" (package_vars (keen world0) 0))))
    by (vm_compute; reflexivity).
  split; [exact H|].
  assert (Hlen : (length args_local < 6)%nat) by (vm_compute; lia).
  exact (proj1 (proj1 (proj2 (proj2 (proj2 (proj2
            (strategy_by_argument_count args_local (keen world0) 0 _ two_requests H)))))
          Hlen)).
Defined.

Lemma static_pages_hosted_witness :
  (main args_remote (package_vars (keen world0) 0)).1.2
    = ListenAndServe ":8080" server_remote
  /\ (6 <= length args_remote)%nat
  /\ NotFound (router server_remote) = None.
Proof.
  assert (H : (main args_remote (package_vars (keen world0) 0)).1.2
              = ListenAndServe ":8080" server_remote)
    by (vm_compute; reflexivity).
  split; [exact H|]. split; [vm_compute; lia|].
  apply (proj1 (proj2 (static_pages_hosted args_remote _ _ _ H))).
  repeat split; [vm_compute; lia | discriminate | discriminate].
Defined.
End MoreSamples.
